(** * layoutimg / tileimg: grid coordinates, colours and exit codes

    A shallow embedding of the two variants of [Main] found in the
    repository (the base variant, [layoutimg], and the extended variant,
    [tileimg], which adds literal "R,G,B" colours), together with the two
    parsers [minMaxXY] and [splitHyphen] that both variants share verbatim.

    Go's [int] is taken to be 64 bits wide.  Strings are byte strings.
    A run of a Go function either yields a value, returns early with an
    error, or aborts with a runtime panic; the three cases are kept apart
    in the type [res]. *)

From Stdlib Require Import ZArith String Ascii List Bool Lia.
From stdpp Require Import base option list strings gmap.

Local Open Scope string_scope.
Local Open Scope list_scope.
Local Open Scope Z_scope.

(** ** Outcomes of Go code *)

Inductive panic : Type :=
| IndexOutOfRange (index length : nat)
| IntegerDivideByZero
| HugeDimensions
| AllocationFailed.

Inductive res (E A : Type) : Type :=
| Ok (a : A)
| Err (e : E)
| Panic (p : panic).

Arguments Ok {E A} a.
Arguments Err {E A} e.
Arguments Panic {E A} p.

#[global] Instance res_ret {E} : MRet (res E) := fun _ a => Ok a.
#[global] Instance res_bind {E} : MBind (res E) := fun _ _ f m =>
  match m with
  | Ok a => f a
  | Err e => Err e
  | Panic p => Panic p
  end.

(** [xs[i]] on a slice: a runtime panic when [i] is out of range. *)
Definition index {E A} (xs : list A) (i : nat) : res E A :=
  match xs !! i with
  | Some x => Ok x
  | None => Panic (IndexOutOfRange i (length xs))
  end.

(** ** Package [strings] *)

Module strings.

Fixpoint HasPrefix (s prefix : string) : bool :=
  match prefix, s with
  | EmptyString, _ => true
  | String _ _, EmptyString => false
  | String p prefix', String c s' => Ascii.eqb c p && HasPrefix s' prefix'
  end.

Fixpoint Contains (s substr : string) : bool :=
  HasPrefix s substr ||
  match s with
  | EmptyString => false
  | String _ s' => Contains s' substr
  end.

(** [Split s sep] for a non-empty separator: the pieces between the
    non-overlapping occurrences of [sep], found from the left.  [skip]
    counts the bytes of an occurrence that are still to be passed over. *)
Fixpoint splitFrom (sep : string) (skip : nat) (s : string) : list string :=
  match s with
  | EmptyString => [EmptyString]
  | String c s' =>
      match skip with
      | S k => splitFrom sep k s'
      | O =>
          if HasPrefix s sep
          then EmptyString :: splitFrom sep (Nat.pred (String.length sep)) s'
          else match splitFrom sep 0 s' with
               | piece :: pieces => String c piece :: pieces
               | [] => [String c EmptyString]
               end
      end
  end.

Definition Split (s sep : string) : list string := splitFrom sep 0 s.

End strings.

(** ** Package [strconv] *)

Inductive numErrKind : Type := ErrSyntax | ErrRange.

(** Go's [error] values, as far as this program meets them:
    [errors.New msg], [*strconv.NumError], and the errors that docopt, [os]
    and [image/png] hand back, of which only the text is kept. *)
Inductive error : Type :=
| errorsNew (msg : string)
| NumError (Func Num : string) (Err : numErrKind)
| libraryError (text : string).

Module strconv.

Definition IntSize : Z := 64.

Definition byteVal (c : ascii) : Z := Z.of_N (N_of_ascii c).

Definition isDigit (c : ascii) : bool :=
  (byteVal "0" <=? byteVal c) && (byteVal c <=? byteVal "9").

Definition maxUint64 : Z := 2 ^ 64 - 1.

(** The digit loop of [ParseUint] in base 10: [n] is the value read so
    far, [maxVal] the largest value of the requested bit size.  The
    first offending byte decides between a syntax and a range error. *)
Fixpoint parseDigits (maxVal n : Z) (s : string) : numErrKind + Z :=
  match s with
  | EmptyString => inr n
  | String c s' =>
      if isDigit c then
        let d := byteVal c - byteVal "0" in
        if maxUint64 / 10 + 1 <=? n then inl ErrRange
        else
          let n10 := n * 10 in
          let n1 := (n10 + d) mod 2 ^ 64 in
          if (n1 <? n10) || (maxVal <? n1) then inl ErrRange
          else parseDigits maxVal n1 s'
      else inl ErrSyntax
  end.

(** [ParseUint(s, 10, bitSize)] without the error wrapper. *)
Definition parseUint (s : string) (bitSize : Z) : numErrKind + Z :=
  match s with
  | EmptyString => inl ErrSyntax
  | _ =>
      let bitSize := if bitSize =? 0 then IntSize else bitSize in
      parseDigits (2 ^ bitSize - 1) 0 s
  end.

Definition ParseUint (s : string) (bitSize : Z) : res error Z :=
  match parseUint s bitSize with
  | inl k => Err (NumError "ParseUint" s k)
  | inr n => Ok n
  end.

(** [ParseInt(s, 10, 0)] without the error wrapper: an optional sign,
    then [ParseUint] at 64 bits, then the range check of [int64].  On a
    range error [ParseUint] hands back the largest value, which the
    check below rejects for either sign. *)
Definition parseInt (s : string) : numErrKind + Z :=
  match s with
  | EmptyString => inl ErrSyntax
  | String c s' =>
      let neg := Ascii.eqb c "-" in
      let digits := if Ascii.eqb c "+" || neg then s' else s in
      match parseUint digits 0 with
      | inl k => inl k
      | inr un =>
          let cutoff := 2 ^ (IntSize - 1) in
          if negb neg && (cutoff <=? un) then inl ErrRange
          else if neg && (cutoff <? un) then inl ErrRange
          else inr (if neg then - un else un)
      end
  end.

(** [Atoi(s)] is [ParseInt(s, 10, 0)] with the error relabelled; its
    fast path for short strings accepts and rejects the same inputs. *)
Definition Atoi (s : string) : res error Z :=
  match parseInt s with
  | inl k => Err (NumError "Atoi" s k)
  | inr n => Ok n
  end.

End strconv.

(** ** The coordinate parsers (identical in both variants) *)

Definition splitHyphen (s : string) : res error (Z * Z) :=
  if strings.Contains s "-" then
    let xs := strings.Split s "-" in
    x0 ← index xs 0;
    a ← strconv.Atoi x0;
    x1 ← index xs 1;
    b ← strconv.Atoi x1;
    mret (a, b)
  else
    a ← strconv.Atoi s;
    mret (a, a).

(** The Go function returns [(x, y, x2, y2, err)]. *)
Definition minMaxXY (s : string) : res error (Z * Z * Z * Z) :=
  if negb (strings.Contains s ",") then
    Err (errorsNew "must need comma separated 2 values")
  else
    let fs := strings.Split s "," in
    f0 ← index fs 0;
    '(x, x2) ← splitHyphen f0;
    f1 ← index fs 1;
    '(y, y2) ← splitHyphen f1;
    mret (x, y, x2, y2).

(** ** Go's [int] and the packages [image], [image/color] *)

Module goint.

(** Two's-complement wrap-around of a 64-bit [int]. *)
Definition wrap (z : Z) : Z := (z + 2 ^ 63) mod 2 ^ 64 - 2 ^ 63.

Definition InRange (z : Z) : Prop := - 2 ^ 63 <= z < 2 ^ 63.

Definition add (a b : Z) : Z := wrap (a + b).
Definition sub (a b : Z) : Z := wrap (a - b).
Definition mul (a b : Z) : Z := wrap (a * b).

(** [a / b] truncates toward zero and panics when [b] is zero. *)
Definition quo {E} (a b : Z) : res E Z :=
  if b =? 0 then Panic IntegerDivideByZero else Ok (wrap (Z.quot a b)).

End goint.

Module color.

Record RGBA : Type := { R : Z; G : Z; B : Z; A : Z }.

(** The zero value, which a map lookup yields for a missing key. *)
Definition zero : RGBA := {| R := 0; G := 0; B := 0; A := 0 |}.

End color.

Module image.

Record Point : Type := { X : Z; Y : Z }.

Record Rectangle : Type := { Min : Point; Max : Point }.

(** [image.Rect] swaps the coordinates of an axis given in the wrong
    order. *)
Definition Rect (x0 y0 x1 y1 : Z) : Rectangle :=
  let '(x0, x1) := if x1 <? x0 then (x1, x0) else (x0, x1) in
  let '(y0, y1) := if y1 <? y0 then (y1, y0) else (y0, y1) in
  {| Min := {| X := x0; Y := y0 |}; Max := {| X := x1; Y := y1 |} |}.

Definition Dx (r : Rectangle) : Z := goint.sub (X (Max r)) (X (Min r)).
Definition Dy (r : Rectangle) : Z := goint.sub (Y (Max r)) (Y (Min r)).

(** [mul3NonNeg] is [x * y * z], or -1 when an argument is negative or
    the product, taken one factor at a time, does not fit an [int]. *)
Definition mul3NonNeg (x y z : Z) : Z :=
  if (x <? 0) || (y <? 0) || (z <? 0) then -1
  else
    let lo := x * y in
    if 2 ^ 64 <=? lo then -1
    else
      let lo := lo * z in
      if 2 ^ 64 <=? lo then -1
      else if 2 ^ 63 <=? lo then -1
      else lo.

(** [pixelBufferLength]: the size of the pixel buffer, or the panic
    "Rectangle has huge or negative dimensions". *)
Definition pixelBufferLength {E} (bytesPerPixel : Z) (r : Rectangle) : res E Z :=
  let totalLength := mul3NonNeg bytesPerPixel (Dx r) (Dy r) in
  if totalLength <? 0 then Panic HugeDimensions else Ok totalLength.

End image.

(** [float64] values are only carried from the configuration to the
    renderer; they are kept as IEEE-754 bit patterns. *)
Definition float64 : Type := Z.

(** ** Types and helpers declared outside the two files at hand *)

Record rectangleParam : Type := {
  rp_x : Z;
  rp_y : Z;
  rp_column : Z;
  rp_row : Z;
  rp_width : Z;
  rp_height : Z;
  rp_pad : Z
}.

Record drawParam : Type := {
  dp_min : image.Rectangle;
  dp_max : image.Rectangle;
  dp_strokeColor : color.RGBA;
  dp_fillColor : color.RGBA;
  dp_lineWidth : float64
}.

(** The pixel buffer [*image.RGBA] is represented by its bounds and by
    the paint operations applied to it so far, oldest first. *)
Inductive paintOp : Type :=
| PaintBackground (c : color.RGBA)
| PaintRectangle (p : drawParam).

Record Canvas : Type := {
  Bounds : image.Rectangle;
  Painted : list paintOp
}.

(** A canvas on which nothing has been painted. *)
Definition blankCanvas (r : image.Rectangle) : Canvas :=
  {| Bounds := r; Painted := [] |}.

(** [image.NewRGBA]: it panics on huge or negative dimensions, and
    otherwise asks the runtime for the pixel buffer.  [makeslice] is what
    the runtime answers to [make([]uint8, n)]: nothing when the buffer is
    granted, or the way the run ends (length out of range, out of
    memory). *)
Definition NewRGBA {E} (makeslice : Z -> option panic) (r : image.Rectangle)
    : res E Canvas :=
  n ← image.pixelBufferLength 4 r;
  match makeslice n with
  | Some p => Panic p
  | None => Ok (blankCanvas r)
  end.

(** Modelled from the spec: [rectangle], the GridCell-to-Rect mapper, is
    not among the source files.  Section 4.1: [cellW = canvasWidth/columns],
    [cellH = canvasHeight/rows] by truncating integer division (a zero
    divisor is fatal), [minX = col*cellW + pad], [minY = row*cellH + pad],
    [maxX = (col+1)*cellW - pad], [maxY = (row+1)*cellH - pad], with no
    clamping and no reordering of the corners.  The arithmetic is that of
    Go's [int]. *)
Definition rectangle {E} (p : rectangleParam) : res E image.Rectangle :=
  cellW ← goint.quo (rp_width p) (rp_column p);
  cellH ← goint.quo (rp_height p) (rp_row p);
  let minX := goint.add (goint.mul (rp_x p) cellW) (rp_pad p) in
  let minY := goint.add (goint.mul (rp_y p) cellH) (rp_pad p) in
  let maxX := goint.sub (goint.mul (goint.add (rp_x p) 1) cellW) (rp_pad p) in
  let maxY := goint.sub (goint.mul (goint.add (rp_y p) 1) cellH) (rp_pad p) in
  mret {| image.Min := {| image.X := minX; image.Y := minY |};
          image.Max := {| image.X := maxX; image.Y := maxY |} |}.

(** Modelled from the spec: [drawBackground] is not among the source
    files.  Section 4.5: it sets every pixel of the canvas to the given
    colour; here the call is recorded on the canvas. *)
Definition drawBackground (dest : Canvas) (c : color.RGBA) : Canvas :=
  {| Bounds := Bounds dest; Painted := Painted dest ++ [PaintBackground c] |}.

(** Modelled from the spec: [draw] is not among the source files.
    Section 4.4: it paints one rectangle onto the shared canvas, in place,
    and returns nothing; here the call is recorded on the canvas. *)
Definition draw (dest : Canvas) (p : drawParam) : Canvas :=
  {| Bounds := Bounds dest; Painted := Painted dest ++ [PaintRectangle p] |}.

(** Modelled from the spec: section 4.3, the renderer's bounding box is
    the top-left corner of [min] and the bottom-right corner of [max]. *)
Definition merged (p : drawParam) : image.Rectangle :=
  {| image.Min := image.Min (dp_min p); image.Max := image.Max (dp_max p) |}.

(** ** Configuration, exit codes and the world around [Main] *)

Record Config : Type := {
  Width : Z;
  Height : Z;
  Column : Z;
  Row : Z;
  Pad : Z;
  BackgroundColor : string;
  StrokeColor : string;
  FillColor : string;
  LineWidth : float64;
  OutFile : string;
  Args : list string
}.

Definition exitCodeOK : Z := 0.
Definition exitCodeArgsError : Z := 1.
Definition exitCodeOpenFileError : Z := 2.
Definition exitCodeRectangleError : Z := 3.
Definition exitCodeImageEncodeError : Z := 4.
(** Declared by the extended variant only. *)
Definition exitCodeColorError : Z := 5.

(** What [docopt.ParseArgs], with the default parser, does with a
    command line: on [--help] and [--version] it prints and ends the
    process with status 0; on a command line that does not match the usage
    it prints the usage and ends the process with status 1; otherwise it
    returns, with an error or with the options, which [opts.Bind] copies
    into the configuration. *)
Inductive docoptOutcome : Type :=
| HelpPrinted
| UsageRejected
| ParseFailed (err : error)
| Parsed (config : Config).

(** What the libraries, the runtime and the operating system answer:
    the outcome of docopt on the command line, whether the pixel buffer is
    granted, whether the output file can be created, whether the PNG
    encoder succeeds. *)
Record World : Type := {
  docopt_ParseArgs : list string -> docoptOutcome;
  runtime_makeslice : Z -> option panic;
  os_Create : string -> option error;
  png_Encode : Canvas -> option error
}.

Inductive termination : Type :=
| Exit (code : Z)
| Abort (p : panic).

(** What a run of [Main] leaves behind: how the process ended, the
    errors that [Main] printed on standard error (what docopt prints itself
    is not recorded), the output file created (if any) and the canvas
    handed to [png.Encode] (if the encode step was reached). *)
Record Run : Type := {
  status : termination;
  stderr : list error;
  created : option string;
  encoded : option Canvas
}.

(** [if err != nil { fmt.Fprintln(os.Stderr, err); return code }] *)
Definition orReturn {A} (code : Z) (m : res error A) : res (Z * error) A :=
  match m with
  | Ok a => Ok a
  | Err e => Err (code, e)
  | Panic p => Panic p
  end.

(** The part of the loop body after the fill colour and the coordinate
    text have been determined (the same lines in both variants). *)
Definition drawSpec (config : Config) (colors : gmap string color.RGBA)
    (width height : Z) (dest : Canvas) (fillColor : color.RGBA) (xy : string)
    : res (Z * error) Canvas :=
  '(x, y, x2, y2) ← orReturn exitCodeRectangleError (minMaxXY xy);
  let rp := {| rp_x := x; rp_y := y; rp_column := Column config; rp_row := Row config;
               rp_width := width; rp_height := height; rp_pad := Pad config |} in
  r ← rectangle rp;
  let rp := {| rp_x := x2; rp_y := y2; rp_column := rp_column rp; rp_row := rp_row rp;
               rp_width := rp_width rp; rp_height := rp_height rp; rp_pad := rp_pad rp |} in
  r2 ← rectangle rp;
  let dp := {| dp_min := r; dp_max := r2;
               dp_strokeColor := default color.zero (colors !! StrokeColor config);
               dp_fillColor := fillColor;
               dp_lineWidth := LineWidth config |} in
  mret (draw dest dp).

(** [for _, arg := range config.Args { ... }] around a loop body. *)
Fixpoint forArgs (body : Canvas -> string -> res (Z * error) Canvas)
    (args : list string) (dest : Canvas) : res (Z * error) Canvas :=
  match args with
  | [] => Ok dest
  | arg :: args' => dest' ← body dest arg; forArgs body args' dest'
  end.

(** Everything in [Main] outside the loop body (the same lines in both
    variants). *)
Definition runMain (colors : gmap string color.RGBA)
    (body : Config -> Z -> Z -> Canvas -> string -> res (Z * error) Canvas)
    (w : World) (args : list string) : Run :=
  match docopt_ParseArgs w args with
  | HelpPrinted =>
      {| status := Exit 0; stderr := []; created := None; encoded := None |}
  | UsageRejected =>
      {| status := Exit 1; stderr := []; created := None; encoded := None |}
  | ParseFailed err =>
      {| status := Exit exitCodeArgsError; stderr := [err];
         created := None; encoded := None |}
  | Parsed config =>
      let opened :=
        if String.eqb (OutFile config) "" then inr None
        else match os_Create w (OutFile config) with
             | Some err => inl err
             | None => inr (Some (OutFile config))
             end in
      match opened with
      | inl err =>
          {| status := Exit exitCodeOpenFileError; stderr := [err];
             created := None; encoded := None |}
      | inr file =>
          let rendered :=
            dest ← NewRGBA (runtime_makeslice w)
                     (image.Rect 0 0 (Width config) (Height config));
            let dest := drawBackground dest
                          (default color.zero (colors !! BackgroundColor config)) in
            let bounds := image.Max (Bounds dest) in
            let width := image.X bounds in
            let height := image.Y bounds in
            forArgs (body config width height) (Args config) dest in
          match rendered with
          | Panic p =>
              {| status := Abort p; stderr := []; created := file; encoded := None |}
          | Err (code, err) =>
              {| status := Exit code; stderr := [err]; created := file;
                 encoded := None |}
          | Ok dest =>
              match png_Encode w dest with
              | Some err =>
                  {| status := Exit exitCodeImageEncodeError; stderr := [err];
                     created := file; encoded := Some dest |}
              | None =>
                  {| status := Exit exitCodeOK; stderr := [];
                     created := file; encoded := Some dest |}
              end
          end
      end
  end.

(** ** The base variant *)

Module Base.

Definition loopBody (colors : gmap string color.RGBA) (config : Config)
    (width height : Z) (dest : Canvas) (arg : string) : res (Z * error) Canvas :=
  '(fillColor, xy) ←
    (if strings.Contains arg ":" then
       let f := strings.Split arg ":" in
       f0 ← index f 0;
       let fillColor := default color.zero (colors !! f0) in
       f1 ← index f 1;
       mret (fillColor, f1)
     else
       mret (default color.zero (colors !! FillColor config), arg));
  drawSpec config colors width height dest fillColor xy.

Definition Main (colors : gmap string color.RGBA) (w : World) (args : list string) : Run :=
  runMain colors (loopBody colors) w args.

End Base.

(** ** The extended variant *)

Module Extended.

(** [uint8(v)] *)
Definition uint8 (v : Z) : Z := v mod 256.

(** The colour named or spelled out before the colon. *)
Definition fillColorOf (colors : gmap string color.RGBA) (name : string)
    : res (Z * error) color.RGBA :=
  match colors !! name with
  | Some c => Ok c
  | None =>
      let cols := strings.Split name "," in
      r ← index cols 0;
      g ← index cols 1;
      b ← index cols 2;
      rr ← orReturn exitCodeColorError (strconv.ParseUint r 8);
      gg ← orReturn exitCodeColorError (strconv.ParseUint g 8);
      bb ← orReturn exitCodeColorError (strconv.ParseUint b 8);
      mret {| color.R := uint8 rr; color.G := uint8 gg; color.B := uint8 bb;
              color.A := 255 |}
  end.

Definition loopBody (colors : gmap string color.RGBA) (config : Config)
    (width height : Z) (dest : Canvas) (arg : string) : res (Z * error) Canvas :=
  '(fillColor, xy) ←
    (if strings.Contains arg ":" then
       let f := strings.Split arg ":" in
       f0 ← index f 0;
       fillColor ← fillColorOf colors f0;
       f1 ← index f 1;
       mret (fillColor, f1)
     else
       mret (default color.zero (colors !! FillColor config), arg));
  drawSpec config colors width height dest fillColor xy.

Definition Main (colors : gmap string color.RGBA) (w : World) (args : list string) : Run :=
  runMain colors (loopBody colors) w args.

End Extended.

(** ** Inputs used in the examples *)

(** The defaults that the usage text gives to every option; [LineWidth]
    is the bit pattern of [2.0]. *)
Definition defaultConfig (args : list string) : Config :=
  {| Width := 200; Height := 200; Column := 4; Row := 4; Pad := 5;
     BackgroundColor := "white"; StrokeColor := "black"; FillColor := "none";
     LineWidth := 4611686018427387904; OutFile := ""; Args := args |}.

(** A world in which the command line holds positional arguments only,
    and creating and encoding succeed. *)
Definition quietWorld : World :=
  {| docopt_ParseArgs := fun args => Parsed (defaultConfig args);
     runtime_makeslice := fun _ => None;
     os_Create := fun _ => None;
     png_Encode := fun _ => None |}.

(** The same world after [-o path], where the file cannot be created. *)
Definition unwritableWorld (path : string) : World :=
  {| docopt_ParseArgs := fun args =>
       Parsed {| Width := 200; Height := 200; Column := 4; Row := 4; Pad := 5;
              BackgroundColor := "white"; StrokeColor := "black"; FillColor := "none";
              LineWidth := 4611686018427387904; OutFile := path; Args := args |};
     runtime_makeslice := fun _ => None;
     os_Create := fun _ => Some (libraryError "open: no such file or directory");
     png_Encode := fun _ => None |}.

(** The quiet world after [-o path], where the file can be created. *)
Definition fileWorld (path : string) : World :=
  {| docopt_ParseArgs := fun args =>
       Parsed {| Width := 200; Height := 200; Column := 4; Row := 4; Pad := 5;
              BackgroundColor := "white"; StrokeColor := "black"; FillColor := "none";
              LineWidth := 4611686018427387904; OutFile := path; Args := args |};
     runtime_makeslice := fun _ => None;
     os_Create := fun _ => None;
     png_Encode := fun _ => None |}.


(** A world in which the command line asks for help. *)
Definition helpWorld : World :=
  {| docopt_ParseArgs := fun _ => HelpPrinted;
     runtime_makeslice := fun _ => None;
     os_Create := fun _ => None;
     png_Encode := fun _ => None |}.


(** Modelled from the spec: the colour table [colors] is not among the
    source files; the spec only calls it a fixed name-to-RGBA table.  This
    instance holds the names that the usage text mentions. *)
Definition sampleColors : gmap string color.RGBA :=
  list_to_map
    [("none", color.zero);
     ("white", {| color.R := 255; color.G := 255; color.B := 255; color.A := 255 |});
     ("black", {| color.R := 0; color.G := 0; color.B := 0; color.A := 255 |});
     ("red", {| color.R := 255; color.G := 0; color.B := 0; color.A := 255 |});
     ("green", {| color.R := 0; color.G := 255; color.B := 0; color.A := 255 |});
     ("blue", {| color.R := 0; color.G := 0; color.B := 255; color.A := 255 |})].

(** ** Vocabulary of the statements *)

(** A string without the given byte. *)
Definition lacks (sep : string) (s : string) : Prop := strings.Contains s sep = false.

(** The text before and after the first colon of a spec that has one:
    [f[0]] and [f[1]] of the loop body. *)
Definition colorName (arg : string) : string :=
  default EmptyString (strings.Split arg ":" !! 0%nat).

Definition xyOf (arg : string) : string :=
  if strings.Contains arg ":"
  then default EmptyString (strings.Split arg ":" !! 1%nat)
  else arg.

(** The parts of a coordinate token that the grammar [INT | INT "-" INT]
    reads as integers. *)
Definition numericParts (token : string) : list string :=
  if strings.Contains token "-" then take 2 (strings.Split token "-") else [token].

(** The numeric parts of a cell spec [TOKEN "," TOKEN]. *)
Definition specNumericParts (s : string) : list string :=
  let fs := strings.Split s "," in
  numericParts (default EmptyString (fs !! 0%nat)) ++
  numericParts (default EmptyString (fs !! 1%nat)).

Definition validInt (part : string) : Prop := exists n, strconv.Atoi part = Ok n.

(** The parameter that the loop body builds for the cell [(x, y)]. *)
Definition cellParam (config : Config) (width height x y : Z) : rectangleParam :=
  {| rp_x := x; rp_y := y; rp_column := Column config; rp_row := Row config;
     rp_width := width; rp_height := height; rp_pad := Pad config |}.

(** The parameters handed to [draw] during a run that reached the encode
    step, oldest first. *)
Definition handedToRenderer (r : Run) : list drawParam :=
  match encoded r with
  | Some dest =>
      omap (fun op => match op with
                      | PaintRectangle p => Some p
                      | PaintBackground _ => None
                      end) (Painted dest)
  | None => []
  end.

(** The coordinate token of a spec does not parse. *)
Definition coordinateFails (arg : string) : Prop :=
  exists e, minMaxXY (xyOf arg) = Err e.

(** The colour of a spec, if it names one, resolves in the extended
    variant. *)
Definition colorResolves (colors : gmap string color.RGBA) (arg : string) : Prop :=
  strings.Contains arg ":" = true ->
  exists c, Extended.fillColorOf colors (colorName arg) = Ok c.

(** The canvas of the configured size is allocated: its dimensions are
    not huge, and the runtime grants the pixel buffer. *)
Definition allocates (w : World) (config : Config) : Prop :=
  NewRGBA (E := Z * error) (runtime_makeslice w)
    (image.Rect 0 0 (Width config) (Height config))
  = Ok (blankCanvas (image.Rect 0 0 (Width config) (Height config))).

(** docopt hands the command line back to [Main], with an error or
    with the options, instead of ending the process itself. *)
Definition docoptReturns (w : World) (args : list string) : Prop :=
  match docopt_ParseArgs w args with
  | HelpPrinted | UsageRejected => False
  | ParseFailed _ | Parsed _ => True
  end.

(** The output is standard output, or the output file can be created. *)
Definition opens (w : World) (config : Config) : Prop :=
  OutFile config = "" \/ os_Create w (OutFile config) = None.

(** The canvas on which the loop starts, and the width and height that
    [Main] reads back from its bounds. *)
Definition initialCanvas (colors : gmap string color.RGBA) (config : Config) : Canvas :=
  drawBackground (blankCanvas (image.Rect 0 0 (Width config) (Height config)))
    (default color.zero (colors !! BackgroundColor config)).

Definition canvasWidth (config : Config) : Z :=
  image.X (image.Max (image.Rect 0 0 (Width config) (Height config))).

Definition canvasHeight (config : Config) : Z :=
  image.Y (image.Max (image.Rect 0 0 (Width config) (Height config))).

(** The fill colour of a spec in the base variant: the table entry of
    the name before the colon, or of the configured fill colour when the
    spec has no colon; the zero value when the table has no such entry. *)
Definition baseFill (colors : gmap string color.RGBA) (config : Config)
    (arg : string) : color.RGBA :=
  default color.zero
    (colors !! (if strings.Contains arg ":" then colorName arg else FillColor config)).

(** The fill colour [c] of a spec in the extended variant. *)
Definition extendedFill (colors : gmap string color.RGBA) (config : Config)
    (arg : string) (c : color.RGBA) : Prop :=
  if strings.Contains arg ":"
  then Extended.fillColorOf colors (colorName arg) = Ok c
  else c = default color.zero (colors !! FillColor config).

(** [dp] is the parameter built for the spec [arg]: its two rectangles
    are those that [rectangle] returns for the start cell and for the end
    cell of the coordinates of [arg], its stroke colour and line width are
    the configured ones. *)
Definition drawnAs (colors : gmap string color.RGBA) (config : Config)
    (width height : Z) (arg : string) (dp : drawParam) : Prop :=
  exists x y x2 y2,
    minMaxXY (xyOf arg) = Ok (x, y, x2, y2) /\
    rectangle (E := Z * error) (cellParam config width height x y) = Ok (dp_min dp) /\
    rectangle (E := Z * error) (cellParam config width height x2 y2) = Ok (dp_max dp) /\
    dp_strokeColor dp = default color.zero (colors !! StrokeColor config) /\
    dp_lineWidth dp = LineWidth config.

(** The output file of a run: none when the image goes to standard
    output. *)
Definition outputFile (config : Config) : option string :=
  if String.eqb (OutFile config) "" then None else Some (OutFile config).

(** How a run reports: an exit code from 0 to [maxCode]; nothing on
    standard error and an encoded image with exit code 0, one line on
    standard error with any other exit code; the encode step reached with
    exit codes 0 and 4 only, and never before a panic. *)
Definition wellReported (w : World) (maxCode : Z) (r : Run) : Prop :=
  match status r with
  | Exit code =>
      0 <= code <= maxCode /\
      (if code =? 0
       then stderr r = [] /\
            exists dest, encoded r = Some dest /\ png_Encode w dest = None
       else exists e, stderr r = [e]) /\
      (encoded r <> None <-> code = exitCodeOK \/ code = exitCodeImageEncodeError)
  | Abort _ => stderr r = [] /\ encoded r = None
  end.

(** A decimal numeral: digits only, at least one; and its value. *)
Fixpoint allDigits (s : string) : bool :=
  match s with
  | EmptyString => true
  | String c s' => strconv.isDigit c && allDigits s'
  end.

Definition isDecimal (s : string) : Prop := s <> EmptyString /\ allDigits s = true.

Fixpoint decimalFrom (n : Z) (s : string) : Z :=
  match s with
  | EmptyString => n
  | String c s' => decimalFrom (n * 10 + (strconv.byteVal c - strconv.byteVal "0")) s'
  end.

Definition decimalValue (s : string) : Z := decimalFrom 0 s.

(** * Properties *)

(** ** Splitting on a single byte *)

Section SplitByte.

Variable d : ascii.

Let sep : string := String d EmptyString.

Lemma HasPrefix_byte c s : strings.HasPrefix (String c s) sep = Ascii.eqb c d.
Proof. cbn. destruct s; apply andb_true_r. Qed.

Lemma Contains_nil : strings.Contains EmptyString sep = false.
Proof. reflexivity. Qed.

Lemma Contains_cons c s :
  strings.Contains (String c s) sep = Ascii.eqb c d || strings.Contains s sep.
Proof.
  change (strings.Contains (String c s) sep)
    with (strings.HasPrefix (String c s) sep || strings.Contains s sep).
  now rewrite HasPrefix_byte.
Qed.

Lemma Split_nil : strings.Split EmptyString sep = [EmptyString].
Proof. reflexivity. Qed.

Lemma Split_nonempty s : exists piece pieces, strings.Split s sep = piece :: pieces.
Proof.
  unfold strings.Split. induction s as [|c s IH]; [by eexists _, _|].
  cbn [strings.splitFrom]. rewrite HasPrefix_byte.
  destruct (Ascii.eqb c d); [by eexists _, _|].
  destruct IH as (piece & pieces & ->). by eexists _, _.
Qed.

Lemma Split_sep s : strings.Split (String d s) sep = EmptyString :: strings.Split s sep.
Proof.
  unfold strings.Split. cbn [strings.splitFrom]. rewrite HasPrefix_byte.
  by rewrite Ascii.eqb_refl.
Qed.

Lemma Split_other c s piece pieces :
  Ascii.eqb c d = false ->
  strings.Split s sep = piece :: pieces ->
  strings.Split (String c s) sep = String c piece :: pieces.
Proof.
  unfold strings.Split. intros Hc Hs. cbn [strings.splitFrom].
  rewrite HasPrefix_byte, Hc. fold sep. by rewrite Hs.
Qed.

(** Without the separator there is one piece, the string itself. *)
Lemma Split_lacks s : lacks sep s -> strings.Split s sep = [s].
Proof.
  unfold lacks. induction s as [|c s IH]; [done|].
  rewrite Contains_cons. intros [Hc Hs]%orb_false_elim.
  by apply Split_other; [|apply IH].
Qed.

(** The first piece ends at the first separator. *)
Lemma Split_app a rest :
  lacks sep a ->
  strings.Split (a +:+ String d rest) sep = a :: strings.Split rest sep.
Proof.
  unfold lacks. induction a as [|c a IH]; intros Ha.
  - apply Split_sep.
  - rewrite Contains_cons in Ha. apply orb_false_elim in Ha as [Hc Ha].
    change (String c a +:+ String d rest) with (String c (a +:+ String d rest)).
    by apply Split_other; [|apply IH].
Qed.

(** A string with the separator starts with a separator-free piece. *)
Lemma Contains_decompose s :
  strings.Contains s sep = true ->
  exists a rest, s = a +:+ String d rest /\ lacks sep a.
Proof.
  induction s as [|c s IH]; [done|].
  rewrite Contains_cons. destruct (Ascii.eqb c d) eqn:Hc.
  - intros _. apply Ascii.eqb_eq in Hc as ->. by exists EmptyString, s.
  - intros (a & rest & -> & Ha)%IH. exists (String c a), rest. split; [done|].
    unfold lacks. by rewrite Contains_cons, Hc.
Qed.

(** No piece holds the separator. *)
Lemma Split_pieces_lack s piece :
  piece ∈ strings.Split s sep -> lacks sep piece.
Proof.
  revert piece. induction s as [|c s IH]; intros piece.
  - rewrite Split_nil. by intros ->%list_elem_of_singleton.
  - destruct (Ascii.eqb c d) eqn:Hc.
    + apply Ascii.eqb_eq in Hc as ->. rewrite Split_sep.
      intros [->|?]%elem_of_cons; [done|by apply IH].
    + destruct (Split_nonempty s) as (p & ps & Hs).
      rewrite (Split_other _ _ _ _ Hc Hs). rewrite Hs in IH.
      intros [->|?]%elem_of_cons.
      * unfold lacks. rewrite Contains_cons, Hc. apply IH. by left.
      * apply IH. by right.
Qed.

(** With the separator there are at least two pieces, so that index 1
    is in range; without it there is exactly one. *)
Lemma Split_two s :
  strings.Contains s sep = true ->
  exists p0 p1 pieces, strings.Split s sep = p0 :: p1 :: pieces.
Proof.
  intros (a & rest & -> & Ha)%Contains_decompose.
  rewrite (Split_app _ _ Ha).
  destruct (Split_nonempty rest) as (p1 & pieces & ->). by eexists _, _, _.
Qed.

End SplitByte.

(** ** Integers read by [strconv] *)

Lemma parseDigits_bounds maxVal n s m :
  strconv.parseDigits maxVal n s = inr m ->
  0 <= n <= maxVal -> 0 <= m <= maxVal.
Proof.
  revert n. induction s as [|c s IH]; intros n; cbn [strconv.parseDigits].
  - by intros [= ->].
  - destruct (strconv.isDigit c); [|done].
    destruct (_ <=? n); [done|].
    destruct (_ || _) eqn:Hchk; [done|].
    apply orb_false_elim in Hchk as [_ Hmax%Z.ltb_ge].
    intros Hm _. apply (IH _ Hm). split; [|done].
    apply Z.mod_pos_bound. lia.
Qed.

Lemma parseUint_bounds s bitSize m :
  strconv.parseUint s bitSize = inr m ->
  0 <= m <= 2 ^ (if bitSize =? 0 then strconv.IntSize else bitSize) - 1.
Proof.
  destruct s as [|c s]; [done|]. unfold strconv.parseUint.
  intros Hm. apply (parseDigits_bounds _ _ _ _ Hm).
  destruct (bitSize =? 0) eqn:Hb; [unfold strconv.IntSize; lia|].
  assert (0 < 2 ^ bitSize \/ 2 ^ bitSize = 0) as [|Hz]; [|lia|].
  - destruct (Z.le_gt_cases 0 bitSize); [left; by apply Z.pow_pos_nonneg|].
    right. by apply Z.pow_neg_r.
  - exfalso. revert Hm. cbn [strconv.parseDigits]. rewrite Hz.
    destruct (strconv.isDigit c); [|done]. destruct (_ <=? 0); [done|].
    destruct (_ || _) eqn:Hchk; [done|].
    apply orb_false_elim in Hchk as [_ Hmax%Z.ltb_ge].
    intros Hm. apply parseDigits_bounds in Hm; [lia|].
    split; [|done]. apply Z.mod_pos_bound. lia.
Qed.

Lemma ParseUint_8_bounds s n : strconv.ParseUint s 8 = Ok n -> 0 <= n <= 255.
Proof.
  unfold strconv.ParseUint. destruct (strconv.parseUint s 8) eqn:Hp; [done|].
  intros [= ->]. apply parseUint_bounds in Hp. cbn in Hp. lia.
Qed.

Lemma Atoi_empty : strconv.Atoi "" = Err (NumError "Atoi" "" ErrSyntax).
Proof. reflexivity. Qed.

(** A string without a hyphen never reads as a negative integer. *)
Lemma Atoi_lacks_hyphen_nonneg s n :
  lacks "-" s -> strconv.Atoi s = Ok n -> 0 <= n.
Proof.
  unfold lacks, strconv.Atoi. destruct (strconv.parseInt s) eqn:Hp; [done|].
  intros Hs [= ->]. destruct s as [|c s]; [done|].
  rewrite Contains_cons in Hs. apply orb_false_elim in Hs as [Hc _].
  cbn [strconv.parseInt] in Hp. rewrite Hc in Hp. cbn [orb negb andb] in Hp.
  destruct (strconv.parseUint _ 0) as [|un] eqn:Hu; [done|].
  apply parseUint_bounds in Hu.
  destruct (_ <=? un); [done|]. injection Hp as <-. lia.
Qed.


(** ** Arithmetic of Go's [int] *)

Lemma wrap_spec a : exists k, goint.wrap a = a + k * 2 ^ 64.
Proof.
  unfold goint.wrap. exists (- ((a + 2 ^ 63) / 2 ^ 64)).
  rewrite Z.mod_eq by lia. ring.
Qed.

Lemma wrap_congr a b : (exists k, a = b + k * 2 ^ 64) -> goint.wrap a = goint.wrap b.
Proof.
  intros [k ->]. unfold goint.wrap.
  replace (b + k * 2 ^ 64 + 2 ^ 63) with (b + 2 ^ 63 + k * 2 ^ 64) by ring.
  by rewrite Z_mod_plus_full.
Qed.

Lemma wrap_InRange z : goint.InRange z -> goint.wrap z = z.
Proof.
  unfold goint.InRange, goint.wrap. intros Hz.
  rewrite Z.mod_small; lia.
Qed.

Lemma wrap_is_InRange z : goint.InRange (goint.wrap z).
Proof.
  unfold goint.InRange, goint.wrap.
  pose proof (Z.mod_pos_bound (z + 2 ^ 63) (2 ^ 64)). lia.
Qed.

Lemma wrap_add_l a b : goint.wrap (goint.wrap a + b) = goint.wrap (a + b).
Proof. destruct (wrap_spec a) as [k ->]. apply wrap_congr. exists k. ring. Qed.

Lemma wrap_sub_l a b : goint.wrap (goint.wrap a - b) = goint.wrap (a - b).
Proof. destruct (wrap_spec a) as [k ->]. apply wrap_congr. exists k. ring. Qed.

Lemma wrap_sub_r a b : goint.wrap (a - goint.wrap b) = goint.wrap (a - b).
Proof. destruct (wrap_spec b) as [k ->]. apply wrap_congr. exists (- k). ring. Qed.

Lemma wrap_mul_l a b : goint.wrap (goint.wrap a * b) = goint.wrap (a * b).
Proof. destruct (wrap_spec a) as [k ->]. apply wrap_congr. exists (k * b). ring. Qed.

Lemma wrap_mul_r a b : goint.wrap (a * goint.wrap b) = goint.wrap (a * b).
Proof. destruct (wrap_spec b) as [k ->]. apply wrap_congr. exists (a * k). ring. Qed.

(** ** The GridCell-to-Rect mapper *)

(** [rectangle] returns a rectangle exactly when neither divisor is zero. *)
Lemma rectangle_total {E} (p : rectangleParam) :
  rp_column p <> 0 -> rp_row p <> 0 ->
  exists r, rectangle (E := E) p = Ok r.
Proof.
  intros Hc%Z.eqb_neq Hr%Z.eqb_neq. unfold rectangle, goint.quo.
  rewrite Hc, Hr. by eexists.
Qed.

(** C2: with positive column and row counts the mapper returns the
    rectangle [minX = col*(canvasWidth/columns) + pad],
    [minY = row*(canvasHeight/rows) + pad],
    [maxX = (col+1)*(canvasWidth/columns) - pad],
    [maxY = (row+1)*(canvasHeight/rows) - pad], the division truncating and
    the results being Go [int]s: [goint.wrap] leaves every value that
    fits in an [int] as it is.  Hence its width is
    [canvasWidth/columns - 2*pad], whatever the row and the column, and
    symmetrically for the height.  Under the default 200x200 canvas, 4x4
    grid and pad 5, the cell (0,0) maps to (5,5)-(45,45). *)
Theorem rectangle_mapper :
  (forall z, goint.InRange z -> goint.wrap z = z) /\
  (forall (E : Type) (p : rectangleParam),
     0 < rp_column p -> 0 < rp_row p ->
     let cellW := rp_width p ÷ rp_column p in
     let cellH := rp_height p ÷ rp_row p in
     exists r,
       rectangle (E := E) p = Ok r /\
       image.X (image.Min r) = goint.wrap (rp_x p * cellW + rp_pad p) /\
       image.Y (image.Min r) = goint.wrap (rp_y p * cellH + rp_pad p) /\
       image.X (image.Max r) = goint.wrap ((rp_x p + 1) * cellW - rp_pad p) /\
       image.Y (image.Max r) = goint.wrap ((rp_y p + 1) * cellH - rp_pad p) /\
       goint.sub (image.X (image.Max r)) (image.X (image.Min r))
         = goint.wrap (cellW - 2 * rp_pad p) /\
       goint.sub (image.Y (image.Max r)) (image.Y (image.Min r))
         = goint.wrap (cellH - 2 * rp_pad p)) /\
  rectangle (E := error)
    {| rp_x := 0; rp_y := 0; rp_column := 4; rp_row := 4;
       rp_width := 200; rp_height := 200; rp_pad := 5 |}
  = Ok {| image.Min := {| image.X := 5; image.Y := 5 |};
          image.Max := {| image.X := 45; image.Y := 45 |} |}.
Proof.
  split; [exact wrap_InRange|]. split; [|reflexivity].
  intros E p Hc Hr cellW cellH. unfold rectangle, goint.quo.
  assert ((rp_column p =? 0) = false) as -> by (apply Z.eqb_neq; lia).
  assert ((rp_row p =? 0) = false) as -> by (apply Z.eqb_neq; lia).
  eexists. split; [reflexivity|]. cbn.
  fold cellW cellH. unfold goint.add, goint.sub, goint.mul.
  rewrite !wrap_mul_r, !wrap_mul_l, !wrap_add_l, !wrap_sub_l.
  repeat split.
  - rewrite wrap_sub_r. f_equal. ring.
  - rewrite wrap_sub_r. f_equal. ring.
Qed.

Lemma rectangle_mapper_witness :
  exists r,
    rectangle (E := error)
      {| rp_x := 2; rp_y := 3; rp_column := 4; rp_row := 4;
         rp_width := 200; rp_height := 200; rp_pad := 5 |} = Ok r /\
    image.X (image.Min r) = 105 /\
    goint.sub (image.X (image.Max r)) (image.X (image.Min r)) = 40.
Proof.
  destruct (proj1 (proj2 rectangle_mapper) error
              {| rp_x := 2; rp_y := 3; rp_column := 4; rp_row := 4;
                 rp_width := 200; rp_height := 200; rp_pad := 5 |})
    as (r & Hr & HminX & _ & _ & _ & Hw & _); [cbn; lia | cbn; lia |].
  exists r. split; [exact Hr|]. split; [exact HminX | exact Hw].
Defined.

(** ** The coordinate parsers *)

Ltac res_simpl := unfold mbind, mret, res_bind, res_ret, index; cbn [lookup list_lookup].

Lemma Contains_app_sep d a rest :
  strings.Contains (a +:+ String d rest) (String d EmptyString) = true.
Proof.
  induction a as [|c a IH].
  - change (EmptyString +:+ String d rest) with (String d rest).
    by rewrite Contains_cons, Ascii.eqb_refl.
  - change (String c a +:+ String d rest) with (String c (a +:+ String d rest)).
    rewrite Contains_cons, IH. apply orb_true_r.
Qed.

(** A token without a hyphen is read as one integer. *)
Lemma splitHyphen_scalar_eq s :
  lacks "-" s ->
  splitHyphen s = (a ← strconv.Atoi s; mret (a, a)).
Proof. unfold lacks, splitHyphen. by intros ->. Qed.

(** A token with a hyphen is read from its first two pieces only. *)
Lemma splitHyphen_hyphen_eq s a b pieces :
  strings.Contains s "-" = true ->
  strings.Split s "-" = a :: b :: pieces ->
  splitHyphen s = (x ← strconv.Atoi a; y ← strconv.Atoi b; mret (x, y)).
Proof.
  unfold splitHyphen. intros -> ->. res_simpl.
  by destruct (strconv.Atoi a).
Qed.

Lemma splitHyphen_cases s :
  (lacks "-" s /\ numericParts s = [s] /\
   splitHyphen s = (a ← strconv.Atoi s; mret (a, a))) \/
  (exists a b,
     lacks "-" a /\ lacks "-" b /\ numericParts s = [a; b] /\
     strings.HasPrefix s (a +:+ "-") = true /\
     splitHyphen s = (x ← strconv.Atoi a; y ← strconv.Atoi b; mret (x, y))).
Proof.
  destruct (strings.Contains s "-") eqn:Hs.
  - right. destruct (Split_two _ _ Hs) as (a & b & pieces & Hsplit).
    exists a, b. split; [|split; [|split; [|split]]].
    + apply (Split_pieces_lack "-" s). rewrite Hsplit. by left.
    + apply (Split_pieces_lack "-" s). rewrite Hsplit. right. by left.
    + unfold numericParts. by rewrite Hs, Hsplit.
    + destruct (Contains_decompose _ _ Hs) as (a' & rest & -> & Ha').
      rewrite (Split_app _ _ _ Ha') in Hsplit. injection Hsplit as -> _.
      clear. induction a as [|c a IH]; [by destruct rest|].
      change (strings.HasPrefix (String c (a +:+ String "-" rest))
                (String c (a +:+ "-")) = true).
      cbn [strings.HasPrefix]. by rewrite Ascii.eqb_refl, IH.
    + by apply splitHyphen_hyphen_eq with pieces.
  - left. split; [done|]. split; [|by apply splitHyphen_scalar_eq].
    unfold numericParts. by rewrite Hs.
Qed.

Lemma Atoi_no_panic s p : strconv.Atoi s <> Panic p.
Proof. unfold strconv.Atoi. by destruct (strconv.parseInt s). Qed.

Lemma splitHyphen_no_panic s p : splitHyphen s <> Panic p.
Proof.
  destruct (splitHyphen_cases s) as [(_ & _ & ->)|(a & b & _ & _ & _ & _ & ->)];
    res_simpl.
  - destruct (strconv.Atoi s) eqn:Ha; try done. by apply Atoi_no_panic in Ha.
  - destruct (strconv.Atoi a) eqn:Ha; try done; [|by apply Atoi_no_panic in Ha].
    destruct (strconv.Atoi b) eqn:Hb; try done. by apply Atoi_no_panic in Hb.
Qed.

(** A token is accepted exactly when its numeric parts are integers. *)
Lemma splitHyphen_ok s ab :
  splitHyphen s = Ok ab -> Forall validInt (numericParts s).
Proof.
  destruct (splitHyphen_cases s) as [(_ & -> & ->)|(a & b & _ & _ & -> & _ & ->)];
    res_simpl.
  - destruct (strconv.Atoi s) as [n| |] eqn:Ha; try done.
    intros _. repeat constructor. by exists n.
  - destruct (strconv.Atoi a) as [x| |] eqn:Ha; try done.
    destruct (strconv.Atoi b) as [y| |] eqn:Hb; try done.
    intros _. repeat constructor; [by exists x | by exists y].
Qed.

Lemma splitHyphen_invalid s part :
  part ∈ numericParts s -> ~ validInt part -> exists e, splitHyphen s = Err e.
Proof.
  intros Hin Hpart. destruct (splitHyphen s) as [ab|e|p] eqn:Hs.
  - apply splitHyphen_ok in Hs. rewrite Forall_forall in Hs.
    destruct Hpart. by apply Hs.
  - by exists e.
  - by apply splitHyphen_no_panic in Hs.
Qed.

Lemma splitHyphen_nonneg s a b : splitHyphen s = Ok (a, b) -> 0 <= a /\ 0 <= b.
Proof.
  destruct (splitHyphen_cases s) as [(Hs & _ & ->)|(a' & b' & Ha' & Hb' & _ & _ & ->)];
    res_simpl.
  - destruct (strconv.Atoi s) as [n| |] eqn:Hn; try done.
    intros [= <- <-]. by split; apply (Atoi_lacks_hyphen_nonneg s).
  - destruct (strconv.Atoi a') as [x| |] eqn:Hx; try done.
    destruct (strconv.Atoi b') as [y| |] eqn:Hy; try done.
    intros [= <- <-]. split.
    + by apply (Atoi_lacks_hyphen_nonneg a').
    + by apply (Atoi_lacks_hyphen_nonneg b').
Qed.

(** A spec with a comma is read from its first two comma-separated
    pieces only. *)
Lemma minMaxXY_comma_eq s :
  strings.Contains s "," = true ->
  exists f0 f1,
    specNumericParts s = numericParts f0 ++ numericParts f1 /\
    minMaxXY s =
      ('(x, x2) ← splitHyphen f0; '(y, y2) ← splitHyphen f1; mret (x, y, x2, y2)).
Proof.
  intros Hs. destruct (Split_two _ _ Hs) as (f0 & f1 & pieces & Hsplit).
  exists f0, f1. unfold specNumericParts, minMaxXY. rewrite Hs, Hsplit.
  split; [done|]. res_simpl. cbn [negb].
  by destruct (splitHyphen f0) as [[] | |].
Qed.

Lemma minMaxXY_no_panic s p : minMaxXY s <> Panic p.
Proof.
  destruct (strings.Contains s ",") eqn:Hs.
  - destruct (minMaxXY_comma_eq s Hs) as (f0 & f1 & _ & ->). res_simpl.
    destruct (splitHyphen f0) as [[]| |] eqn:H0; try done;
      [|by apply splitHyphen_no_panic in H0].
    destruct (splitHyphen f1) as [[]| |] eqn:H1; try done.
    by apply splitHyphen_no_panic in H1.
  - unfold minMaxXY. by rewrite Hs.
Qed.

(** [minMaxXY] either returns coordinates or an error. *)
Lemma minMaxXY_dec s : {c | minMaxXY s = Ok c} + {e | minMaxXY s = Err e}.
Proof.
  destruct (minMaxXY s) as [c|e|p] eqn:Hs; [left; by exists c | right; by exists e |].
  by apply minMaxXY_no_panic in Hs.
Qed.

(** C5: a token that is a single integer parses to [start = end =] that
    integer, and a token [INT "-" INT] parses to its two parts in order.
    An [INT] is a string that [strconv.Atoi] accepts and that holds no
    hyphen, the separator of the grammar. *)
Theorem splitHyphen_grammar (a b : string) (x y : Z) :
  lacks "-" a -> lacks "-" b ->
  strconv.Atoi a = Ok x -> strconv.Atoi b = Ok y ->
  splitHyphen a = Ok (x, x) /\
  splitHyphen (a +:+ "-" +:+ b) = Ok (x, y).
Proof.
  intros Ha Hb Hx Hy. split.
  - rewrite (splitHyphen_scalar_eq a Ha), Hx. reflexivity.
  - change ("-" +:+ b) with (String "-" b).
    rewrite (splitHyphen_hyphen_eq _ a b []).
    + rewrite Hx, Hy. reflexivity.
    + apply Contains_app_sep.
    + rewrite (Split_app _ _ _ Ha). f_equal. by apply Split_lacks.
Qed.

Lemma splitHyphen_grammar_witness :
  splitHyphen "1" = Ok (1, 1) /\ splitHyphen "1-4" = Ok (1, 4).
Proof. apply (splitHyphen_grammar "1" "4" 1 4); reflexivity. Defined.

Example splitHyphen_scalar_3 : splitHyphen "3" = Ok (3, 3).
Proof. reflexivity. Qed.

(** C1, as stated, fails: the token "1-4-7" is accepted, and read as the
    range (1,4). *)
Lemma three_part_token_accepted :
  splitHyphen "1-4-7" = Ok (1, 4) /\ ~ (exists e, splitHyphen "1-4-7" = Err e).
Proof. split; [reflexivity|]. intros [e He]. discriminate He. Qed.

(** C1, amended: a token [INT "-" INT "-" rest] parses, yielding its first
    two parts in order; whatever follows the second hyphen is not looked
    at. *)
Theorem splitHyphen_extra_parts (a b rest : string) (x y : Z) :
  lacks "-" a -> lacks "-" b ->
  strconv.Atoi a = Ok x -> strconv.Atoi b = Ok y ->
  splitHyphen (a +:+ "-" +:+ b +:+ "-" +:+ rest) = Ok (x, y).
Proof.
  intros Ha Hb Hx Hy.
  change ("-" +:+ b +:+ "-" +:+ rest) with (String "-" (b +:+ String "-" rest)).
  rewrite (splitHyphen_hyphen_eq _ a b (strings.Split rest "-")).
  - rewrite Hx, Hy. reflexivity.
  - apply Contains_app_sep.
  - by rewrite (Split_app _ _ _ Ha), (Split_app _ _ _ Hb).
Qed.

Lemma splitHyphen_extra_parts_witness :
  splitHyphen "1-4-7" = Ok (1, 4) /\ splitHyphen "2-5-x-" = Ok (2, 5).
Proof.
  split.
  - apply (splitHyphen_extra_parts "1" "4" "7" 1 4); reflexivity.
  - apply (splitHyphen_extra_parts "2" "5" "x-" 2 5); reflexivity.
Defined.

(** C10: a token whose first byte is the hyphen is rejected, the piece
    before that hyphen being empty and so no integer; hence the
    coordinates that [splitHyphen] and [minMaxXY] return are never
    negative. *)
Theorem hyphen_first_rejected (s : string) :
  (strings.HasPrefix s "-" = true ->
   splitHyphen s = Err (NumError "Atoi" "" ErrSyntax)) /\
  (forall a b, splitHyphen s = Ok (a, b) -> 0 <= a /\ 0 <= b) /\
  (forall x y x2 y2,
     minMaxXY s = Ok (x, y, x2, y2) -> 0 <= x /\ 0 <= y /\ 0 <= x2 /\ 0 <= y2).
Proof.
  split; [|split].
  - destruct s as [|c s]; [done|]. rewrite HasPrefix_byte.
    intros ->%Ascii.eqb_eq.
    destruct (Split_nonempty "-" s) as (b & pieces & Hs).
    rewrite (splitHyphen_hyphen_eq _ "" b pieces).
    + by rewrite Atoi_empty.
    + by rewrite Contains_cons, Ascii.eqb_refl.
    + by rewrite Split_sep, Hs.
  - apply splitHyphen_nonneg.
  - intros x y x2 y2. destruct (strings.Contains s ",") eqn:Hs.
    + destruct (minMaxXY_comma_eq s Hs) as (f0 & f1 & _ & ->). res_simpl.
      destruct (splitHyphen f0) as [[a a2]| |] eqn:H0; try done.
      destruct (splitHyphen f1) as [[b b2]| |] eqn:H1; try done.
      intros [= <- <- <- <-].
      apply splitHyphen_nonneg in H0, H1. tauto.
    + unfold minMaxXY. by rewrite Hs.
Qed.

Lemma hyphen_first_rejected_witness :
  splitHyphen "-3" = Err (NumError "Atoi" "" ErrSyntax) /\
  (0 <= 2 /\ 0 <= 5) /\
  (0 <= 1 /\ 0 <= 0 /\ 0 <= 2 /\ 0 <= 0).
Proof.
  split; [|split].
  - apply (proj1 (hyphen_first_rejected "-3")). reflexivity.
  - apply (proj1 (proj2 (hyphen_first_rejected "2-5")) 2 5). reflexivity.
  - apply (proj2 (proj2 (hyphen_first_rejected "1-2,0")) 1 0 2 0). reflexivity.
Defined.

(** C7: [minMaxXY] fails, returning an error and no coordinates, on
    every cell spec without a comma and on every cell spec one of whose
    numeric parts is not an integer.  The numeric parts of a spec are those
    that the grammar [TOKEN "," TOKEN], [TOKEN := INT | INT "-" INT] reads
    as integers. *)
Theorem minMaxXY_rejects (s : string) :
  lacks "," s \/ (exists part, part ∈ specNumericParts s /\ ~ validInt part) ->
  exists e, minMaxXY s = Err e.
Proof.
  intros [Hs|(part & Hin & Hpart)].
  - unfold minMaxXY. unfold lacks in Hs. rewrite Hs. by eexists.
  - destruct (strings.Contains s ",") eqn:Hs;
      [|unfold minMaxXY; rewrite Hs; by eexists].
    destruct (minMaxXY_comma_eq s Hs) as (f0 & f1 & Hparts & ->).
    rewrite Hparts in Hin. res_simpl.
    destruct (splitHyphen f0) as [[x x2]|e|p] eqn:H0;
      [|by exists e|by apply splitHyphen_no_panic in H0].
    apply elem_of_app in Hin as [Hin|Hin].
    + destruct (splitHyphen_invalid f0 part Hin Hpart) as [e He]. congruence.
    + destruct (splitHyphen_invalid f1 part Hin Hpart) as [e ->]. by exists e.
Qed.

Lemma minMaxXY_rejects_witness :
  (exists e, minMaxXY "12" = Err e) /\ (exists e, minMaxXY "1-x,0" = Err e).
Proof.
  split.
  - apply (minMaxXY_rejects "12"). left. reflexivity.
  - apply (minMaxXY_rejects "1-x,0"). right. exists "x". split.
    + right. left.
    + intros [n Hn]. discriminate Hn.
Defined.

(** ** The loop body *)

Lemma orReturn_Ok {A} code (m : res error A) a : m = Ok a -> orReturn code m = Ok a.
Proof. by intros ->. Qed.

Lemma orReturn_Err {A} code (m : res error A) e :
  m = Err e -> orReturn code m = Err (code, e).
Proof. by intros ->. Qed.

Lemma drawSpec_ok config colors width height dest fillColor xy x y x2 y2 :
  minMaxXY xy = Ok (x, y, x2, y2) ->
  Column config <> 0 -> Row config <> 0 ->
  exists r r2,
    rectangle (E := Z * error) (cellParam config width height x y) = Ok r /\
    rectangle (E := Z * error) (cellParam config width height x2 y2) = Ok r2 /\
    drawSpec config colors width height dest fillColor xy =
      Ok (draw dest
            {| dp_min := r; dp_max := r2;
               dp_strokeColor := default color.zero (colors !! StrokeColor config);
               dp_fillColor := fillColor;
               dp_lineWidth := LineWidth config |}).
Proof.
  intros Hxy Hc Hr.
  destruct (rectangle_total (E := Z * error) (cellParam config width height x y))
    as [r Hrect]; [done..|].
  destruct (rectangle_total (E := Z * error) (cellParam config width height x2 y2))
    as [r2 Hrect2]; [done..|].
  exists r, r2. split; [done|]. split; [done|].
  unfold drawSpec. rewrite (orReturn_Ok _ _ _ Hxy). res_simpl.
  unfold cellParam in Hrect, Hrect2. cbn [rp_column rp_row rp_width rp_height rp_pad].
  by rewrite Hrect, Hrect2.
Qed.

Lemma drawSpec_err config colors width height dest fillColor xy e :
  minMaxXY xy = Err e ->
  drawSpec config colors width height dest fillColor xy
  = Err (exitCodeRectangleError, e).
Proof. intros Hxy. unfold drawSpec. by rewrite (orReturn_Err _ _ _ Hxy). Qed.

(** In a spec with a colon, [f[0]] and [f[1]] are in range. *)
Lemma colon_pieces arg :
  strings.Contains arg ":" = true ->
  exists pieces, strings.Split arg ":" = colorName arg :: xyOf arg :: pieces.
Proof.
  intros Harg. destruct (Split_two _ _ Harg) as (f0 & f1 & pieces & Hsplit).
  exists pieces. unfold colorName, xyOf. by rewrite Harg, Hsplit.
Qed.

Lemma xyOf_plain arg : strings.Contains arg ":" = false -> xyOf arg = arg.
Proof. unfold xyOf. by intros ->. Qed.

Lemma Base_loopBody_eq colors config width height dest arg :
  Base.loopBody colors config width height dest arg =
  drawSpec config colors width height dest
    (default color.zero
       (colors !! (if strings.Contains arg ":" then colorName arg else FillColor config)))
    (xyOf arg).
Proof.
  unfold Base.loopBody. destruct (strings.Contains arg ":") eqn:Harg.
  - destruct (colon_pieces arg Harg) as [pieces ->]. by res_simpl.
  - by rewrite (xyOf_plain arg Harg).
Qed.

Lemma Extended_loopBody_eq colors config width height dest arg :
  Extended.loopBody colors config width height dest arg =
  if strings.Contains arg ":" then
    fillColor ← Extended.fillColorOf colors (colorName arg);
    drawSpec config colors width height dest fillColor (xyOf arg)
  else
    drawSpec config colors width height dest
      (default color.zero (colors !! FillColor config)) arg.
Proof.
  unfold Extended.loopBody. destruct (strings.Contains arg ":") eqn:Harg; [|done].
  destruct (colon_pieces arg Harg) as [pieces ->]. res_simpl.
  by destruct (Extended.fillColorOf colors (colorName arg)).
Qed.

(** C3: for a spec that parses to the range (xStart,yStart)-(xEnd,yEnd),
    the parameter handed to the renderer has as [min] the mapped rectangle
    of the start cell and as [max] the mapped rectangle of the end cell,
    so that the bounding box runs from the top-left corner of the first to
    the bottom-right corner of the second; the two are taken by position,
    whatever their order.  Under the default configuration "1-2,0" gives
    top-left (55,5) and bottom-right (145,45) in both variants, and the
    reversed range "2-1,0" gives top-left (105,5) and bottom-right
    (95,45). *)
Theorem positional_merge :
  (forall config colors width height dest fillColor xy xStart yStart xEnd yEnd,
     minMaxXY xy = Ok (xStart, yStart, xEnd, yEnd) ->
     Column config <> 0 -> Row config <> 0 ->
     exists rectStart rectEnd dp,
       rectangle (E := Z * error) (cellParam config width height xStart yStart)
         = Ok rectStart /\
       rectangle (E := Z * error) (cellParam config width height xEnd yEnd)
         = Ok rectEnd /\
       drawSpec config colors width height dest fillColor xy = Ok (draw dest dp) /\
       dp_min dp = rectStart /\ dp_max dp = rectEnd /\
       merged dp = {| image.Min := image.Min rectStart;
                      image.Max := image.Max rectEnd |}) /\
  merged <$> handedToRenderer (Base.Main sampleColors quietWorld ["1-2,0"])
    = [{| image.Min := {| image.X := 55; image.Y := 5 |};
          image.Max := {| image.X := 145; image.Y := 45 |} |}] /\
  merged <$> handedToRenderer (Extended.Main sampleColors quietWorld ["1-2,0"])
    = [{| image.Min := {| image.X := 55; image.Y := 5 |};
          image.Max := {| image.X := 145; image.Y := 45 |} |}] /\
  merged <$> handedToRenderer (Extended.Main sampleColors quietWorld ["2-1,0"])
    = [{| image.Min := {| image.X := 105; image.Y := 5 |};
          image.Max := {| image.X := 95; image.Y := 45 |} |}].
Proof.
  split; [|by vm_compute].
  intros config colors width height dest fillColor xy xStart yStart xEnd yEnd Hxy Hc Hr.
  destruct (drawSpec_ok config colors width height dest fillColor xy _ _ _ _ Hxy Hc Hr)
    as (r & r2 & Hrect & Hrect2 & Hdraw).
  by eexists r, r2, _.
Qed.

Lemma positional_merge_witness :
  exists dp,
    drawSpec (defaultConfig []) sampleColors 200 200
      (blankCanvas (image.Rect 0 0 200 200)) color.zero "0-1,2-3" = Ok
      (draw (blankCanvas (image.Rect 0 0 200 200)) dp) /\
    merged dp = {| image.Min := {| image.X := 5; image.Y := 105 |};
                   image.Max := {| image.X := 95; image.Y := 195 |} |}.
Proof.
  destruct (proj1 positional_merge (defaultConfig []) sampleColors 200 200
              (blankCanvas (image.Rect 0 0 200 200)) color.zero "0-1,2-3" 0 2 1 3)
    as (rectStart & rectEnd & dp & Hstart & Hend & Hdraw & _ & _ & Hmerged);
    [reflexivity | cbn; lia | cbn; lia |].
  exists dp. split; [exact Hdraw|].
  rewrite Hmerged. injection Hstart as <-. injection Hend as <-. reflexivity.
Defined.

(** ** The loop and the run around it *)

Lemma forArgs_reaches body pre bad post dest :
  (forall a, a ∈ pre -> forall d, exists d', body d a = Ok d') ->
  exists d,
    forArgs body (pre ++ bad :: post) dest =
    (d' ← body d bad; forArgs body post d').
Proof.
  revert dest. induction pre as [|a pre IH]; intros dest Hpre.
  - by exists dest.
  - destruct (Hpre a (list_elem_of_here _ _) dest) as [d' Hd'].
    destruct (IH d') as [d Hd].
    { intros a' Ha'. apply Hpre. by right. }
    exists d. cbn [app forArgs]. rewrite Hd'. exact Hd.
Qed.

Lemma forArgs_all_ok body args dest :
  (forall a, a ∈ args -> forall d, exists d', body d a = Ok d') ->
  exists dest', forArgs body args dest = Ok dest'.
Proof.
  revert dest. induction args as [|a args IH]; intros dest Hargs.
  - by exists dest.
  - destruct (Hargs a (list_elem_of_here _ _) dest) as [d' Hd'].
    cbn [forArgs]. rewrite Hd'. apply IH. intros a' Ha'. apply Hargs. by right.
Qed.

Lemma NewRGBA_cases w config :
  allocates w config \/
  exists p,
    NewRGBA (E := Z * error) (runtime_makeslice w)
      (image.Rect 0 0 (Width config) (Height config)) = Panic p.
Proof.
  unfold allocates, NewRGBA, image.pixelBufferLength.
  destruct (_ <? 0); [right; by eexists|]. res_simpl.
  destruct (runtime_makeslice w _) as [p|]; [right; by eexists|by left].
Qed.

(** The whole record of a run whose output opens and whose canvas is
    allocated. *)
Lemma runMain_opened colors body w args config :
  docopt_ParseArgs w args = Parsed config -> opens w config -> allocates w config ->
  runMain colors body w args =
  match forArgs (body config (canvasWidth config) (canvasHeight config))
          (Args config) (initialCanvas colors config) with
  | Panic p =>
      {| status := Abort p; stderr := []; created := outputFile config;
         encoded := None |}
  | Err (code, e) =>
      {| status := Exit code; stderr := [e]; created := outputFile config;
         encoded := None |}
  | Ok dest =>
      match png_Encode w dest with
      | Some err =>
          {| status := Exit exitCodeImageEncodeError; stderr := [err];
             created := outputFile config; encoded := Some dest |}
      | None =>
          {| status := Exit exitCodeOK; stderr := [];
             created := outputFile config; encoded := Some dest |}
      end
  end.
Proof.
  intros Hdoc Hopen Halloc. unfold runMain. rewrite Hdoc.
  unfold allocates in Halloc. rewrite Halloc.
  assert ((if String.eqb (OutFile config) ""
           then inr None
           else match os_Create w (OutFile config) with
                | Some err => inl err
                | None => inr (Some (OutFile config))
                end) = (inr (outputFile config) : error + option string)) as ->.
  { unfold outputFile. destruct Hopen as [->| ->]; [done|].
    by destruct (String.eqb _ _). }
  done.
Qed.

(** The whole record of a run whose canvas is not allocated. *)
Lemma runMain_unallocated colors body w args config p :
  docopt_ParseArgs w args = Parsed config -> opens w config ->
  NewRGBA (E := Z * error) (runtime_makeslice w)
    (image.Rect 0 0 (Width config) (Height config)) = Panic p ->
  runMain colors body w args =
  {| status := Abort p; stderr := []; created := outputFile config;
     encoded := None |}.
Proof.
  intros Hdoc Hopen Halloc. unfold runMain. rewrite Hdoc, Halloc.
  assert ((if String.eqb (OutFile config) ""
           then inr None
           else match os_Create w (OutFile config) with
                | Some err => inl err
                | None => inr (Some (OutFile config))
                end) = (inr (outputFile config) : error + option string)) as ->.
  { unfold outputFile. destruct Hopen as [->| ->]; [done|].
    by destruct (String.eqb _ _). }
  done.
Qed.

(** How a run ends, given how its loop ends. *)
Lemma runMain_loop colors body w args config :
  docopt_ParseArgs w args = Parsed config -> opens w config -> allocates w config ->
  let r := runMain colors body w args in
  match forArgs (body config (canvasWidth config) (canvasHeight config))
          (Args config) (initialCanvas colors config) with
  | Panic p => status r = Abort p /\ encoded r = None
  | Err (code, e) => status r = Exit code /\ encoded r = None /\ stderr r = [e]
  | Ok dest =>
      encoded r = Some dest /\
      status r = match png_Encode w dest with
                 | Some _ => Exit exitCodeImageEncodeError
                 | None => Exit exitCodeOK
                 end
  end.
Proof.
  intros Hdoc Hopen Halloc r. subst r.
  rewrite (runMain_opened colors body w args config Hdoc Hopen Halloc).
  destruct (forArgs _ _ _) as [dest|[code e]|p]; [|done..].
  by destruct (png_Encode w dest).
Qed.


Lemma Base_loopBody_parses colors config width height dest arg :
  Column config <> 0 -> Row config <> 0 -> ~ coordinateFails arg ->
  exists dp,
    Base.loopBody colors config width height dest arg = Ok (draw dest dp) /\
    dp_fillColor dp =
      default color.zero
        (colors !! (if strings.Contains arg ":" then colorName arg else FillColor config)).
Proof.
  intros Hc Hr Hparse. rewrite Base_loopBody_eq.
  destruct (minMaxXY_dec (xyOf arg)) as [[[[[x y] x2] y2] Hxy]|[e He]].
  - destruct (drawSpec_ok config colors width height dest
                (default color.zero
                   (colors !! (if strings.Contains arg ":"
                               then colorName arg else FillColor config)))
                _ _ _ _ _ Hxy Hc Hr) as (r & r2 & _ & _ & ->).
    by eexists.
  - destruct Hparse. by exists e.
Qed.

Lemma Base_loopBody_fails colors config width height dest arg e :
  minMaxXY (xyOf arg) = Err e ->
  Base.loopBody colors config width height dest arg = Err (exitCodeRectangleError, e).
Proof. intros He. rewrite Base_loopBody_eq. by apply drawSpec_err. Qed.

Lemma Extended_loopBody_parses colors config width height dest arg :
  Column config <> 0 -> Row config <> 0 ->
  colorResolves colors arg -> ~ coordinateFails arg ->
  exists dp, Extended.loopBody colors config width height dest arg = Ok (draw dest dp).
Proof.
  intros Hc Hr Hcolor Hparse. rewrite Extended_loopBody_eq.
  destruct (minMaxXY_dec (xyOf arg)) as [[[[[x y] x2] y2] Hxy]|[e He]];
    [|destruct Hparse; by exists e].
  destruct (strings.Contains arg ":") eqn:Harg.
  - destruct (Hcolor Harg) as [c ->]. res_simpl.
    destruct (drawSpec_ok config colors width height dest c _ _ _ _ _ Hxy Hc Hr)
      as (r & r2 & _ & _ & ->).
    by eexists.
  - rewrite (xyOf_plain arg Harg) in Hxy.
    destruct (drawSpec_ok config colors width height dest
                (default color.zero (colors !! FillColor config))
                _ _ _ _ _ Hxy Hc Hr) as (r & r2 & _ & _ & ->).
    by eexists.
Qed.

Lemma Extended_loopBody_fails colors config width height dest arg e :
  colorResolves colors arg -> minMaxXY (xyOf arg) = Err e ->
  Extended.loopBody colors config width height dest arg
  = Err (exitCodeRectangleError, e).
Proof.
  intros Hcolor He. rewrite Extended_loopBody_eq.
  destruct (strings.Contains arg ":") eqn:Harg.
  - destruct (Hcolor Harg) as [c ->]. res_simpl. by apply drawSpec_err.
  - rewrite (xyOf_plain arg Harg) in He. by apply drawSpec_err.
Qed.

(** In the base variant a run whose specs all parse ends with exit code
    0 when the encoder succeeds, whatever colours the specs name. *)
Lemma Base_Main_success colors w args config :
  docopt_ParseArgs w args = Parsed config -> opens w config -> allocates w config ->
  Column config <> 0 -> Row config <> 0 ->
  (forall arg, arg ∈ Args config -> ~ coordinateFails arg) ->
  (forall dest, png_Encode w dest = None) ->
  status (Base.Main colors w args) = Exit exitCodeOK /\
  exists dest, encoded (Base.Main colors w args) = Some dest.
Proof.
  intros Hdoc Hopen Halloc Hc Hr Hargs Henc.
  pose proof (runMain_loop colors (Base.loopBody colors) w args config Hdoc Hopen
                Halloc) as Hrun.
  cbn zeta in Hrun.
  destruct (forArgs_all_ok
              (Base.loopBody colors config (canvasWidth config) (canvasHeight config))
              (Args config) (initialCanvas colors config)) as [dest Hloop].
  { intros a Ha d.
    destruct (Base_loopBody_parses colors config (canvasWidth config)
                (canvasHeight config) d a Hc Hr (Hargs a Ha)) as (dp & -> & _).
    by eexists. }
  rewrite Hloop, Henc in Hrun. destruct Hrun as [Henc' Hst].
  split; [done|by exists dest].
Qed.


(** ** Exit codes *)




(** ** Colours *)

(** A colour that is no table name and splits into fewer than three
    comma-separated parts makes [fillColorOf] index past the end of
    [cols]. *)
Lemma fillColorOf_short colors name :
  colors !! name = None ->
  (length (strings.Split name ",") < 3)%nat ->
  Extended.fillColorOf colors name
  = Panic (IndexOutOfRange (length (strings.Split name ","))
                           (length (strings.Split name ","))).
Proof.
  intros Hmiss Hlen. unfold Extended.fillColorOf. rewrite Hmiss.
  destruct (strings.Split name ",") as [|r [|g [|b cols]]] eqn:Hsplit.
  - destruct (Split_nonempty "," name) as (? & ? & ?). congruence.
  - reflexivity.
  - reflexivity.
  - cbn in Hlen. lia.
Qed.

Lemma Extended_loopBody_short colors config width height dest arg :
  strings.Contains arg ":" = true ->
  colors !! colorName arg = None ->
  (length (strings.Split (colorName arg) ",") < 3)%nat ->
  Extended.loopBody colors config width height dest arg
  = Panic (IndexOutOfRange (length (strings.Split (colorName arg) ","))
                           (length (strings.Split (colorName arg) ","))).
Proof.
  intros Harg Hmiss Hlen.
  by rewrite Extended_loopBody_eq, Harg, (fillColorOf_short _ _ Hmiss Hlen).
Qed.

Lemma Extended_Main_short colors w args config pre arg post :
  docopt_ParseArgs w args = Parsed config -> opens w config -> allocates w config ->
  Args config = pre ++ arg :: post ->
  (forall a, a ∈ pre -> forall d, exists d',
     Extended.loopBody colors config (canvasWidth config) (canvasHeight config) d a
     = Ok d') ->
  strings.Contains arg ":" = true ->
  colors !! colorName arg = None ->
  (length (strings.Split (colorName arg) ",") < 3)%nat ->
  status (Extended.Main colors w args)
  = Abort (IndexOutOfRange (length (strings.Split (colorName arg) ","))
                           (length (strings.Split (colorName arg) ","))) /\
  encoded (Extended.Main colors w args) = None.
Proof.
  intros Hdoc Hopen Halloc Hargs Hpre Harg Hmiss Hlen.
  pose proof (runMain_loop colors (Extended.loopBody colors) w args config Hdoc Hopen
                Halloc) as Hrun.
  cbn zeta in Hrun. rewrite Hargs in Hrun.
  destruct (forArgs_reaches
              (Extended.loopBody colors config (canvasWidth config)
                 (canvasHeight config))
              pre arg post (initialCanvas colors config) Hpre) as [d Hd].
  by rewrite Hd, (Extended_loopBody_short _ _ _ _ _ _ Harg Hmiss Hlen) in Hrun.
Qed.

(** With three parts or more the colour is read from the first three:
    either all are decimal numbers from 0 to 255, which become the
    channels next to alpha 255, or the run ends with the colour exit
    code. *)
Lemma fillColorOf_triplet colors name r g b cols :
  colors !! name = None ->
  strings.Split name "," = r :: g :: b :: cols ->
  (exists rr gg bb,
     strconv.ParseUint r 8 = Ok rr /\ strconv.ParseUint g 8 = Ok gg /\
     strconv.ParseUint b 8 = Ok bb /\
     0 <= rr <= 255 /\ 0 <= gg <= 255 /\ 0 <= bb <= 255 /\
     Extended.fillColorOf colors name
     = Ok {| color.R := rr; color.G := gg; color.B := bb; color.A := 255 |}) \/
  (exists e, Extended.fillColorOf colors name = Err (exitCodeColorError, e)).
Proof.
  intros Hmiss Hsplit. unfold Extended.fillColorOf. rewrite Hmiss, Hsplit. res_simpl.
  assert (Hpanic : forall s p, strconv.ParseUint s 8 <> Panic p).
  { intros s p. unfold strconv.ParseUint. by destruct (strconv.parseUint s 8). }
  destruct (strconv.ParseUint r 8) as [rr|e|p] eqn:Hrr;
    [|right; by exists e|by apply Hpanic in Hrr].
  destruct (strconv.ParseUint g 8) as [gg|e|p] eqn:Hgg;
    [|right; by exists e|by apply Hpanic in Hgg].
  destruct (strconv.ParseUint b 8) as [bb|e|p] eqn:Hbb;
    [|right; by exists e|by apply Hpanic in Hbb].
  left. exists rr, gg, bb.
  pose proof (ParseUint_8_bounds _ _ Hrr). pose proof (ParseUint_8_bounds _ _ Hgg).
  pose proof (ParseUint_8_bounds _ _ Hbb).
  repeat (split; [done|]). cbn [orReturn]. unfold Extended.uint8.
  by rewrite !Z.mod_small by lia.
Qed.

(** C9, as stated, fails in one detail: a colour of two parts, such as
    "1,2", is no table name and has fewer than three parts, yet [cols[1]]
    is in range; only [cols[2]] is not. *)
Lemma two_part_color_second_index_in_range :
  sampleColors !! colorName "1,2:0,0" = None /\
  (length (strings.Split (colorName "1,2:0,0") ",") < 3)%nat /\
  strings.Split (colorName "1,2:0,0") "," !! 1%nat = Some "2".
Proof. split; [reflexivity|]. split; [cbn; lia|reflexivity]. Qed.

(** C9, amended: in the extended variant, when the colour of a spec
    [COLOR:XY] is no table name and splits on commas into fewer than three
    parts, [cols[2]] is out of range, and so is [cols[1]] when the colour
    holds no comma at all; the loop body then does not return but panics
    on the first index past the end, and a run that reaches such a spec
    (the output opened, the canvas allocated, the specs before it drawn)
    aborts with that panic, not with the colour exit code 5. *)
Theorem short_color_panics colors arg :
  strings.Contains arg ":" = true ->
  colors !! colorName arg = None ->
  (length (strings.Split (colorName arg) ",") < 3)%nat ->
  let cols := strings.Split (colorName arg) "," in
  cols !! 2%nat = None /\
  (lacks "," (colorName arg) -> cols !! 1%nat = None) /\
  (forall config width height dest,
     Extended.loopBody colors config width height dest arg
     = Panic (IndexOutOfRange (length cols) (length cols))) /\
  (forall w args config pre post,
     docopt_ParseArgs w args = Parsed config -> opens w config ->
     allocates w config ->
     Args config = pre ++ arg :: post ->
     (forall a, a ∈ pre -> forall d, exists d',
        Extended.loopBody colors config (canvasWidth config) (canvasHeight config)
          d a = Ok d') ->
     status (Extended.Main colors w args)
       = Abort (IndexOutOfRange (length cols) (length cols)) /\
     status (Extended.Main colors w args) <> Exit exitCodeColorError).
Proof.
  intros Harg Hmiss Hlen cols. subst cols. split; [|split; [|split]].
  - apply lookup_ge_None. lia.
  - intros Hname. by rewrite (Split_lacks _ _ Hname).
  - intros config width height dest. by apply Extended_loopBody_short.
  - intros w args config pre post Hdoc Hopen Halloc Hargs Hpre.
    destruct (Extended_Main_short colors w args config pre arg post) as [Hst _];
      [done..|].
    split; [done|]. by rewrite Hst.
Qed.

Lemma short_color_panics_witness :
  strings.Split (colorName "redd:0,0") "," !! 2%nat = None /\
  strings.Split (colorName "redd:0,0") "," !! 1%nat = None /\
  status (Extended.Main sampleColors quietWorld ["0,0"; "redd:0,0"; "1,1"])
    = Abort (IndexOutOfRange 1 1) /\
  status (Extended.Main sampleColors quietWorld ["1,2:0,0"])
    = Abort (IndexOutOfRange 2 2).
Proof.
  split; [|split; [|split]].
  - apply (proj1 (short_color_panics sampleColors "redd:0,0" eq_refl eq_refl
                    ltac:(cbn; lia))).
  - apply (proj1 (proj2 (short_color_panics sampleColors "redd:0,0" eq_refl eq_refl
                           ltac:(cbn; lia)))).
    reflexivity.
  - refine (proj1 (proj2 (proj2 (proj2 (short_color_panics sampleColors "redd:0,0"
                                          eq_refl eq_refl ltac:(cbn; lia))))
                     quietWorld ["0,0"; "redd:0,0"; "1,1"]
                     (defaultConfig ["0,0"; "redd:0,0"; "1,1"]) ["0,0"] ["1,1"]
                     eq_refl (or_introl eq_refl) eq_refl eq_refl _)).
    intros a ->%list_elem_of_singleton d. by eexists.
  - refine (proj1 (proj2 (proj2 (proj2 (short_color_panics sampleColors "1,2:0,0"
                                          eq_refl eq_refl ltac:(cbn; lia))))
                     quietWorld ["1,2:0,0"] (defaultConfig ["1,2:0,0"]) [] []
                     eq_refl (or_introl eq_refl) eq_refl eq_refl _)).
    intros a []%elem_of_nil.
Defined.

(** C6 states that every colour that does not resolve ends the run with
    exit code 5.  The code does so for a colour of three parts or more
    ([fillColorOf_triplet]), and misses the case of a colour with fewer
    parts: with the misspelt name "redd", in no table that lacks it does
    the run end with exit code 5; it aborts with an index out of range. *)
Theorem misspelt_color_aborts colors :
  colors !! "redd" = None ->
  status (Extended.Main colors quietWorld ["redd:0,0"]) = Abort (IndexOutOfRange 1 1) /\
  status (Extended.Main colors quietWorld ["redd:0,0"]) <> Exit exitCodeColorError.
Proof.
  intros Hmiss.
  destruct (Extended_Main_short colors quietWorld ["redd:0,0"]
              (defaultConfig ["redd:0,0"]) [] "redd:0,0" []) as [Hst _];
    [done | by left | done | done | by intros a []%elem_of_nil
    | done | done | cbn; lia |].
  split; [done|]. by rewrite Hst.
Qed.

Lemma misspelt_color_aborts_witness :
  status (Extended.Main sampleColors quietWorld ["redd:0,0"])
    = Abort (IndexOutOfRange 1 1) /\
  status (Extended.Main sampleColors quietWorld ["redd:0,0"])
    <> Exit exitCodeColorError.
Proof. apply (misspelt_color_aborts sampleColors). reflexivity. Defined.

(** * Further properties of the parsers *)

Lemma Atoi_err s e : strconv.Atoi s = Err e -> exists k, e = NumError "Atoi" s k.
Proof.
  unfold strconv.Atoi. destruct (strconv.parseInt s) as [k|n]; [|done].
  intros [= <-]. by exists k.
Qed.

Lemma Atoi_InRange s n : strconv.Atoi s = Ok n -> goint.InRange n.
Proof.
  unfold strconv.Atoi. destruct (strconv.parseInt s) as [k|m] eqn:Hp; [done|].
  intros [= ->]. destruct s as [|c s]; [done|]. cbn [strconv.parseInt] in Hp.
  destruct (strconv.parseUint _ 0) as [|un] eqn:Hu; [done|].
  apply parseUint_bounds in Hu. cbn in Hu.
  unfold goint.InRange. change (2 ^ (strconv.IntSize - 1)) with (2 ^ 63) in Hp.
  destruct (Ascii.eqb c "-"); cbn [negb andb] in Hp.
  - destruct (2 ^ 63 <? un) eqn:Hcut; [done|]. apply Z.ltb_ge in Hcut.
    injection Hp as <-. lia.
  - destruct (2 ^ 63 <=? un) eqn:Hcut; [done|]. apply Z.leb_gt in Hcut.
    injection Hp as <-. lia.
Qed.

Lemma splitHyphen_err s e :
  splitHyphen s = Err e ->
  exists part k,
    part ∈ numericParts s /\ e = NumError "Atoi" part k /\ ~ validInt part.
Proof.
  destruct (splitHyphen_cases s) as [(_ & -> & ->)|(a & b & _ & _ & -> & _ & ->)];
    res_simpl.
  - destruct (strconv.Atoi s) as [n|e'|] eqn:Ha; try done.
    intros [= <-]. destruct (Atoi_err _ _ Ha) as [k ->].
    exists s, k. split; [by left|]. split; [done|]. intros [n Hn]. congruence.
  - destruct (strconv.Atoi a) as [x|e'|] eqn:Ha; try done.
    + destruct (strconv.Atoi b) as [y|e'|] eqn:Hb; try done.
      intros [= <-]. destruct (Atoi_err _ _ Hb) as [k ->].
      exists b, k. split; [right; by left|]. split; [done|].
      intros [n Hn]. congruence.
    + intros [= <-]. destruct (Atoi_err _ _ Ha) as [k ->].
      exists a, k. split; [by left|]. split; [done|]. intros [n Hn]. congruence.
Qed.

Lemma splitHyphen_valid s :
  Forall validInt (numericParts s) -> exists ab, splitHyphen s = Ok ab.
Proof.
  intros Hparts. destruct (splitHyphen s) as [ab|e|p] eqn:Hs.
  - by exists ab.
  - destruct (splitHyphen_err s e Hs) as (part & k & Hin & _ & Hbad).
    rewrite Forall_forall in Hparts. destruct Hbad. by apply Hparts.
  - by apply splitHyphen_no_panic in Hs.
Qed.

(** [minMaxXY] in terms of the first two comma-separated fields. *)
Lemma minMaxXY_fields s tx ty pieces :
  strings.Split s "," = tx :: ty :: pieces ->
  strings.Contains s "," = true ->
  specNumericParts s = numericParts tx ++ numericParts ty /\
  minMaxXY s =
    ('(x, x2) ← splitHyphen tx; '(y, y2) ← splitHyphen ty; mret (x, y, x2, y2)).
Proof.
  intros Hsplit Hs. unfold specNumericParts, minMaxXY. rewrite Hs, Hsplit.
  split; [done|]. res_simpl. cbn [negb].
  by destruct (splitHyphen tx) as [[] | |].
Qed.

Lemma Split_pair tx ty :
  lacks "," tx -> lacks "," ty ->
  strings.Split (tx +:+ "," +:+ ty) "," = [tx; ty].
Proof.
  intros Hx Hy. change ("," +:+ ty) with (String "," ty).
  by rewrite (Split_app _ _ _ Hx), (Split_lacks _ _ Hy).
Qed.

Lemma Split_triple tx ty rest :
  lacks "," tx -> lacks "," ty ->
  strings.Split (tx +:+ "," +:+ ty +:+ "," +:+ rest) ","
  = tx :: ty :: strings.Split rest ",".
Proof.
  intros Hx Hy.
  change ("," +:+ ty +:+ "," +:+ rest) with (String "," (ty +:+ String "," rest)).
  by rewrite (Split_app _ _ _ Hx), (Split_app _ _ _ Hy).
Qed.

(** X1: the two ranges of a spec come back interleaved: for the spec
    [tx "," ty], where [tx] parses to the range (x, x2) and [ty] to the
    range (y, y2), [minMaxXY] returns (x, y, x2, y2), the start cell first
    and the end cell second. *)
Theorem minMaxXY_interleaves (tx ty : string) (x x2 y y2 : Z) :
  lacks "," tx -> lacks "," ty ->
  splitHyphen tx = Ok (x, x2) -> splitHyphen ty = Ok (y, y2) ->
  minMaxXY (tx +:+ "," +:+ ty) = Ok (x, y, x2, y2).
Proof.
  intros Hx Hy Hsx Hsy.
  destruct (minMaxXY_fields _ tx ty [] (Split_pair tx ty Hx Hy)) as [_ ->].
  - change ("," +:+ ty) with (String "," ty). apply Contains_app_sep.
  - by rewrite Hsx, Hsy.
Qed.

Lemma minMaxXY_interleaves_witness : minMaxXY "1-4,2-3" = Ok (1, 2, 4, 3).
Proof. apply (minMaxXY_interleaves "1-4" "2-3" 1 4 2 3); reflexivity. Defined.

(** X2: whatever follows a second comma is not looked at: the spec
    [tx "," ty "," rest] gives what [tx "," ty] gives, be it coordinates or
    an error. *)
Theorem minMaxXY_ignores_third_field (tx ty rest : string) :
  lacks "," tx -> lacks "," ty ->
  minMaxXY (tx +:+ "," +:+ ty +:+ "," +:+ rest) = minMaxXY (tx +:+ "," +:+ ty).
Proof.
  intros Hx Hy.
  destruct (minMaxXY_fields _ tx ty [] (Split_pair tx ty Hx Hy)) as [_ ->].
  { change ("," +:+ ty) with (String "," ty). apply Contains_app_sep. }
  destruct (minMaxXY_fields _ tx ty _ (Split_triple tx ty rest Hx Hy)) as [_ ->];
    [|done].
  change ("," +:+ ty +:+ "," +:+ rest) with (String "," (ty +:+ "," +:+ rest)).
  apply Contains_app_sep.
Qed.

Lemma minMaxXY_ignores_third_field_witness :
  minMaxXY "1,2,x-" = minMaxXY "1,2" /\ minMaxXY "a,2,3" = minMaxXY "a,2".
Proof.
  split.
  - apply (minMaxXY_ignores_third_field "1" "2" "x-"); reflexivity.
  - apply (minMaxXY_ignores_third_field "a" "2" "3"); reflexivity.
Defined.

(** X3: [minMaxXY] returns coordinates exactly for the specs that hold a
    comma and all of whose numeric parts are integers to [strconv.Atoi]. *)
Theorem minMaxXY_accepts_iff (s : string) :
  (exists c, minMaxXY s = Ok c) <->
  strings.Contains s "," = true /\ Forall validInt (specNumericParts s).
Proof.
  split.
  - intros [c Hc]. destruct (strings.Contains s ",") eqn:Hs;
      [|unfold minMaxXY in Hc; by rewrite Hs in Hc].
    split; [done|].
    destruct (minMaxXY_comma_eq s Hs) as (f0 & f1 & -> & Heq).
    rewrite Heq in Hc. revert Hc. res_simpl.
    destruct (splitHyphen f0) as [[x x2]| |] eqn:H0; try done.
    destruct (splitHyphen f1) as [[y y2]| |] eqn:H1; try done.
    intros _. apply Forall_app. split; by eapply splitHyphen_ok.
  - intros [Hs Hparts].
    destruct (minMaxXY_comma_eq s Hs) as (f0 & f1 & Heq & ->).
    rewrite Heq in Hparts. apply Forall_app in Hparts as [H0 H1].
    destruct (splitHyphen_valid f0 H0) as [[x x2] ->].
    destruct (splitHyphen_valid f1 H1) as [[y y2] ->].
    by eexists.
Qed.

Lemma minMaxXY_accepts_iff_witness :
  (exists c, minMaxXY "0-2,+3" = Ok c) /\
  (strings.Contains "1-2,0" "," = true /\ Forall validInt (specNumericParts "1-2,0")).
Proof.
  split.
  - apply (proj2 (minMaxXY_accepts_iff "0-2,+3")). split; [reflexivity|].
    repeat constructor; by eexists.
  - apply (proj1 (minMaxXY_accepts_iff "1-2,0")). by eexists.
Defined.

(** X4: the error of [minMaxXY] tells what was wrong: it is either the
    comma message, for a spec without a comma, or the [strconv.Atoi] error
    that names a numeric part of the spec which is no integer. *)
Theorem minMaxXY_error_sound (s : string) (e : error) :
  minMaxXY s = Err e ->
  (lacks "," s /\ e = errorsNew "must need comma separated 2 values") \/
  (exists part k,
     part ∈ specNumericParts s /\ e = NumError "Atoi" part k /\ ~ validInt part).
Proof.
  destruct (strings.Contains s ",") eqn:Hs.
  - destruct (minMaxXY_comma_eq s Hs) as (f0 & f1 & -> & ->). res_simpl.
    intros He. right.
    destruct (splitHyphen f0) as [[x x2]|e0|] eqn:H0; try done.
    + destruct (splitHyphen f1) as [[y y2]|e1|] eqn:H1; try done.
      injection He as <-.
      destruct (splitHyphen_err f1 e1 H1) as (part & k & Hin & -> & Hbad).
      exists part, k. split; [|done]. apply elem_of_app. by right.
    + injection He as <-.
      destruct (splitHyphen_err f0 e0 H0) as (part & k & Hin & -> & Hbad).
      exists part, k. split; [|done]. apply elem_of_app. by left.
  - unfold minMaxXY. rewrite Hs. intros [= <-]. by left.
Qed.

Lemma minMaxXY_error_sound_witness :
  (lacks "," "1-2,x" /\
   NumError "Atoi" "x" ErrSyntax = errorsNew "must need comma separated 2 values") \/
  (exists part k,
     part ∈ specNumericParts "1-2,x" /\
     NumError "Atoi" "x" ErrSyntax = NumError "Atoi" part k /\ ~ validInt part).
Proof. apply (minMaxXY_error_sound "1-2,x"). reflexivity. Defined.

Lemma splitHyphen_fits t a b :
  splitHyphen t = Ok (a, b) -> a < 2 ^ 63 /\ b < 2 ^ 63.
Proof.
  destruct (splitHyphen_cases t) as [(_ & _ & ->)|(a' & b' & _ & _ & _ & _ & ->)];
    res_simpl.
  - destruct (strconv.Atoi t) as [n| |] eqn:Hn; try done.
    intros [= <- <-]. apply Atoi_InRange in Hn. unfold goint.InRange in Hn. lia.
  - destruct (strconv.Atoi a') as [n| |] eqn:Hn; try done.
    destruct (strconv.Atoi b') as [m| |] eqn:Hm; try done.
    intros [= <- <-]. apply Atoi_InRange in Hn, Hm.
    unfold goint.InRange in Hn, Hm. lia.
Qed.

Lemma isDigit_value c :
  strconv.isDigit c = true -> 0 <= strconv.byteVal c - strconv.byteVal "0" <= 9.
Proof.
  unfold strconv.isDigit. intros [H0 H9]%andb_true_iff.
  apply Z.leb_le in H0, H9. change (strconv.byteVal "0") with 48 in *.
  change (strconv.byteVal "9") with 57 in *. lia.
Qed.

Lemma isDigit_no_separator c :
  strconv.isDigit c = true ->
  Ascii.eqb c "-" = false /\ Ascii.eqb c "+" = false /\ Ascii.eqb c "," = false.
Proof.
  intros Hc. repeat split; apply Ascii.eqb_neq; intros ->; discriminate Hc.
Qed.

Lemma allDigits_lacks s :
  allDigits s = true -> lacks "-" s /\ lacks "," s.
Proof.
  unfold lacks. induction s as [|c s IH]; [done|]. cbn [allDigits].
  intros [Hc Hs]%andb_true_iff. destruct (IH Hs) as [IH1 IH2].
  destruct (isDigit_no_separator c Hc) as (H1 & _ & H2).
  by rewrite !Contains_cons, H1, H2, IH1, IH2.
Qed.

Lemma decimalFrom_ge n s : allDigits s = true -> 0 <= n -> n <= decimalFrom n s.
Proof.
  revert n. induction s as [|c s IH]; intros n; cbn [allDigits decimalFrom]; [lia|].
  intros [Hc%isDigit_value Hs]%andb_true_iff Hn.
  specialize (IH (n * 10 + (strconv.byteVal c - strconv.byteVal "0")) Hs). lia.
Qed.

(** On digits, the loop of [ParseUint] computes the decimal value, and
    reports a range error exactly when it exceeds 64 bits. *)
Lemma parseDigits_decimal n s :
  allDigits s = true -> 0 <= n <= 2 ^ 64 - 1 ->
  strconv.parseDigits (2 ^ 64 - 1) n s =
  if decimalFrom n s <=? 2 ^ 64 - 1 then inr (decimalFrom n s) else inl ErrRange.
Proof.
  revert n. induction s as [|c s IH]; intros n; cbn [allDigits decimalFrom].
  - intros _ Hn. cbn [strconv.parseDigits].
    by destruct (Z.leb_spec n (2 ^ 64 - 1)); [|lia].
  - intros [Hc Hs]%andb_true_iff Hn. cbn [strconv.parseDigits]. rewrite Hc.
    pose proof (isDigit_value c Hc) as Hd.
    set (d := strconv.byteVal c - strconv.byteVal "0") in *.
    pose proof (decimalFrom_ge (n * 10 + d) s Hs ltac:(lia)) as Hge.
    change (strconv.maxUint64 / 10 + 1) with 1844674407370955162.
    change (2 ^ 64) with 18446744073709551616 in *.
    destruct (Z.leb_spec 1844674407370955162 n) as [Hcut|Hcut].
    { by destruct (Z.leb_spec (decimalFrom (n * 10 + d) s)
                     (18446744073709551616 - 1)); [lia|]. }
    cbn zeta.
    destruct (Z.le_gt_cases 18446744073709551616 (n * 10 + d)) as [Hover|Hfit].
    + assert ((n * 10 + d) mod 18446744073709551616
              = n * 10 + d - 18446744073709551616) as ->.
      { symmetry. apply (Z.mod_unique _ _ 1); lia. }
      destruct (Z.ltb_spec (n * 10 + d - 18446744073709551616) (n * 10)); [|lia].
      cbn [orb].
      by destruct (Z.leb_spec (decimalFrom (n * 10 + d) s)
                     (18446744073709551616 - 1)); [lia|].
    + rewrite Z.mod_small by lia.
      destruct (Z.ltb_spec (n * 10 + d) (n * 10)); [lia|].
      destruct (Z.ltb_spec (18446744073709551616 - 1) (n * 10 + d)); [lia|].
      cbn [orb]. apply IH; [done|lia].
Qed.

(** [Atoi] on a decimal numeral: its value when that fits an [int], a
    range error otherwise. *)
Lemma Atoi_decimal s :
  isDecimal s ->
  strconv.Atoi s =
  if decimalValue s <? 2 ^ 63 then Ok (decimalValue s)
  else Err (NumError "Atoi" s ErrRange).
Proof.
  intros [Hne Hs]. destruct s as [|c s]; [done|].
  pose proof Hs as Hs'. cbn [allDigits] in Hs'.
  apply andb_true_iff in Hs' as [Hc _].
  destruct (isDigit_no_separator c Hc) as (Hminus & Hplus & _).
  unfold strconv.Atoi, strconv.parseInt. rewrite Hminus, Hplus. cbn [orb negb andb].
  unfold strconv.parseUint. cbn [Z.eqb]. unfold strconv.IntSize.
  rewrite (parseDigits_decimal 0 (String c s) Hs) by lia.
  fold (decimalValue (String c s)).
  change (2 ^ (64 - 1)) with (2 ^ 63).
  change (2 ^ 64) with 18446744073709551616.
  change (2 ^ 63) with 9223372036854775808.
  destruct (Z.leb_spec (decimalValue (String c s)) (18446744073709551616 - 1)).
  - destruct (Z.leb_spec 9223372036854775808 (decimalValue (String c s)));
      by destruct (Z.ltb_spec (decimalValue (String c s)) 9223372036854775808);
      try lia.
  - by destruct (Z.ltb_spec (decimalValue (String c s)) 9223372036854775808);
      try lia.
Qed.

(** X5: numbers are read exactly or not at all.  For decimal numerals
    [tx] and [ty], [minMaxXY] on [tx "," ty] returns their decimal values
    when both are below 2^63, and otherwise the range error of
    [strconv.Atoi] on the first numeral that is too large for an [int];
    no value is ever wrapped.  And whatever the spec, the coordinates
    returned lie from 0 to 2^63 - 1. *)
Theorem minMaxXY_fits_int :
  (forall s x y x2 y2,
     minMaxXY s = Ok (x, y, x2, y2) ->
     0 <= x < 2 ^ 63 /\ 0 <= y < 2 ^ 63 /\ 0 <= x2 < 2 ^ 63 /\ 0 <= y2 < 2 ^ 63) /\
  (forall tx ty,
     isDecimal tx -> isDecimal ty ->
     minMaxXY (tx +:+ "," +:+ ty) =
     if decimalValue tx <? 2 ^ 63 then
       if decimalValue ty <? 2 ^ 63
       then Ok (decimalValue tx, decimalValue ty, decimalValue tx, decimalValue ty)
       else Err (NumError "Atoi" ty ErrRange)
     else Err (NumError "Atoi" tx ErrRange)).
Proof.
  split.
  - intros s x y x2 y2.
    destruct (strings.Contains s ",") eqn:Hs;
      [|unfold minMaxXY; by rewrite Hs].
    destruct (minMaxXY_comma_eq s Hs) as (f0 & f1 & _ & ->). res_simpl.
    destruct (splitHyphen f0) as [[a a2]| |] eqn:H0; try done.
    destruct (splitHyphen f1) as [[b b2]| |] eqn:H1; try done.
    intros [= <- <- <- <-].
    pose proof (splitHyphen_nonneg _ _ _ H0). pose proof (splitHyphen_nonneg _ _ _ H1).
    apply splitHyphen_fits in H0, H1. lia.
  - intros tx ty Hx Hy.
    destruct (allDigits_lacks tx (proj2 Hx)) as [Hhx Hcx].
    destruct (allDigits_lacks ty (proj2 Hy)) as [Hhy Hcy].
    destruct (minMaxXY_fields _ tx ty [] (Split_pair tx ty Hcx Hcy)) as [_ ->].
    { change ("," +:+ ty) with (String "," ty). apply Contains_app_sep. }
    rewrite (splitHyphen_scalar_eq tx Hhx), (splitHyphen_scalar_eq ty Hhy).
    rewrite (Atoi_decimal tx Hx), (Atoi_decimal ty Hy).
    destruct (decimalValue tx <? 2 ^ 63); [|done].
    by destruct (decimalValue ty <? 2 ^ 63).
Qed.

Lemma minMaxXY_fits_int_witness :
  minMaxXY "9223372036854775807,007"
    = Ok (9223372036854775807, 7, 9223372036854775807, 7) /\
  minMaxXY "3,9223372036854775808"
    = Err (NumError "Atoi" "9223372036854775808" ErrRange) /\
  minMaxXY "18446744073709551616,0"
    = Err (NumError "Atoi" "18446744073709551616" ErrRange).
Proof.
  split; [|split].
  - apply (proj2 minMaxXY_fits_int "9223372036854775807" "007"); by split.
  - apply (proj2 minMaxXY_fits_int "3" "9223372036854775808"); by split.
  - apply (proj2 minMaxXY_fits_int "18446744073709551616" "0"); by split.
Defined.

(** X6: a range left open at its end is rejected: the token [a "-"]
    fails, with the error of [a] when [a] is no integer and otherwise with
    the syntax error of the empty piece after the hyphen. *)
Theorem splitHyphen_open_range (a : string) :
  lacks "-" a ->
  (forall x, strconv.Atoi a = Ok x ->
     splitHyphen (a +:+ "-") = Err (NumError "Atoi" "" ErrSyntax)) /\
  (forall e, strconv.Atoi a = Err e -> splitHyphen (a +:+ "-") = Err e).
Proof.
  intros Ha.
  assert (Heq : splitHyphen (a +:+ "-")
                = (x ← strconv.Atoi a; y ← strconv.Atoi ""; mret (x, y))).
  { apply (splitHyphen_hyphen_eq _ a "" []).
    - apply Contains_app_sep.
    - by rewrite (Split_app _ _ _ Ha). }
  rewrite Heq. split.
  - by intros x ->.
  - by intros e ->.
Qed.

Lemma splitHyphen_open_range_witness :
  splitHyphen "3-" = Err (NumError "Atoi" "" ErrSyntax) /\
  splitHyphen "x-" = Err (NumError "Atoi" "x" ErrSyntax).
Proof.
  split.
  - apply (proj1 (splitHyphen_open_range "3" eq_refl) 3). reflexivity.
  - apply (proj2 (splitHyphen_open_range "x" eq_refl)). reflexivity.
Defined.

(** X7: the x range is read first: when the token before the first comma
    fails, its error is the error of the whole spec, whatever follows the
    comma. *)
Theorem minMaxXY_x_error_first (tx rest : string) (e : error) :
  lacks "," tx -> splitHyphen tx = Err e ->
  minMaxXY (tx +:+ "," +:+ rest) = Err e.
Proof.
  intros Hx He. destruct (Split_nonempty "," rest) as (ty & pieces & Hrest).
  destruct (minMaxXY_fields (tx +:+ "," +:+ rest) tx ty pieces) as [_ ->].
  - change ("," +:+ rest) with (String "," rest).
    by rewrite (Split_app _ _ _ Hx), Hrest.
  - change ("," +:+ rest) with (String "," rest). apply Contains_app_sep.
  - by rewrite He.
Qed.

Lemma minMaxXY_x_error_first_witness :
  minMaxXY "a-1,b" = Err (NumError "Atoi" "a" ErrSyntax).
Proof. apply (minMaxXY_x_error_first "a-1" "b"); reflexivity. Defined.

(** X8: a scalar token is the range from itself to itself: [a] and
    [a "-" a] give the same result, be it a pair or an error. *)
Theorem splitHyphen_scalar_is_range (a : string) :
  lacks "-" a -> splitHyphen (a +:+ "-" +:+ a) = splitHyphen a.
Proof.
  intros Ha. rewrite (splitHyphen_scalar_eq a Ha).
  change ("-" +:+ a) with (String "-" a).
  rewrite (splitHyphen_hyphen_eq _ a a []).
  - by destruct (strconv.Atoi a).
  - apply Contains_app_sep.
  - by rewrite (Split_app _ _ _ Ha), (Split_lacks _ _ Ha).
Qed.

Lemma splitHyphen_scalar_is_range_witness :
  splitHyphen "7-7" = splitHyphen "7" /\ splitHyphen "q-q" = splitHyphen "q".
Proof.
  split.
  - apply (splitHyphen_scalar_is_range "7"). reflexivity.
  - apply (splitHyphen_scalar_is_range "q"). reflexivity.
Defined.

(** * Further properties of the loop body *)

Lemma colon_fields c xy :
  lacks ":" c -> lacks ":" xy ->
  strings.Contains (c +:+ ":" +:+ xy) ":" = true /\
  colorName (c +:+ ":" +:+ xy) = c /\ xyOf (c +:+ ":" +:+ xy) = xy.
Proof.
  intros Hc Hxy. change (":" +:+ xy) with (String ":" xy).
  assert (Hcontains : strings.Contains (c +:+ String ":" xy) ":" = true)
    by apply Contains_app_sep.
  unfold colorName, xyOf.
  by rewrite Hcontains, (Split_app _ _ _ Hc), (Split_lacks _ _ Hxy).
Qed.

Lemma colon_fields_more c xy rest :
  lacks ":" c -> lacks ":" xy ->
  strings.Contains (c +:+ ":" +:+ xy +:+ ":" +:+ rest) ":" = true /\
  colorName (c +:+ ":" +:+ xy +:+ ":" +:+ rest) = c /\
  xyOf (c +:+ ":" +:+ xy +:+ ":" +:+ rest) = xy.
Proof.
  intros Hc Hxy.
  change (":" +:+ xy +:+ ":" +:+ rest) with (String ":" (xy +:+ String ":" rest)).
  assert (Hcontains :
    strings.Contains (c +:+ String ":" (xy +:+ String ":" rest)) ":" = true)
    by apply Contains_app_sep.
  unfold colorName, xyOf.
  by rewrite Hcontains, (Split_app _ _ _ Hc), (Split_app _ _ _ Hxy).
Qed.

(** X9: whatever follows a second colon is not looked at: in both
    variants the spec [c ":" xy ":" rest] is handled as [c ":" xy] is. *)
Theorem text_after_second_colon_ignored colors config width height dest
    (c xy rest : string) :
  lacks ":" c -> lacks ":" xy ->
  Base.loopBody colors config width height dest (c +:+ ":" +:+ xy +:+ ":" +:+ rest)
  = Base.loopBody colors config width height dest (c +:+ ":" +:+ xy) /\
  Extended.loopBody colors config width height dest
    (c +:+ ":" +:+ xy +:+ ":" +:+ rest)
  = Extended.loopBody colors config width height dest (c +:+ ":" +:+ xy).
Proof.
  intros Hc Hxy.
  destruct (colon_fields c xy Hc Hxy) as (H1 & H2 & H3).
  destruct (colon_fields_more c xy rest Hc Hxy) as (H4 & H5 & H6).
  rewrite !Base_loopBody_eq, !Extended_loopBody_eq.
  by rewrite H1, H2, H3, H4, H5, H6.
Qed.

Lemma text_after_second_colon_ignored_witness :
  Base.loopBody sampleColors (defaultConfig []) 200 200
    (initialCanvas sampleColors (defaultConfig [])) "red:0,0:1,1"
  = Base.loopBody sampleColors (defaultConfig []) 200 200
      (initialCanvas sampleColors (defaultConfig [])) "red:0,0" /\
  Extended.loopBody sampleColors (defaultConfig []) 200 200
    (initialCanvas sampleColors (defaultConfig [])) "red:0,0:1,1"
  = Extended.loopBody sampleColors (defaultConfig []) 200 200
      (initialCanvas sampleColors (defaultConfig [])) "red:0,0".
Proof.
  apply (text_after_second_colon_ignored sampleColors (defaultConfig []) 200 200
           (initialCanvas sampleColors (defaultConfig [])) "red" "0,0" "1,1");
    reflexivity.
Defined.

Lemma ParseUint_no_panic s bitSize p : strconv.ParseUint s bitSize <> Panic p.
Proof. unfold strconv.ParseUint. by destruct (strconv.parseUint s bitSize). Qed.

Lemma ParseUint_err s bitSize e :
  strconv.ParseUint s bitSize = Err e -> exists k, e = NumError "ParseUint" s k.
Proof.
  unfold strconv.ParseUint. destruct (strconv.parseUint s bitSize) as [k|]; [|done].
  intros [= <-]. by exists k.
Qed.

(** X10: a colour that is no table name and has three comma-separated
    parts or more is read from the first three.  When [fillColorOf]
    returns a colour, its channels are those three parts read as decimal
    numbers, each from 0 to 255, and its alpha is 255; when it fails, it
    does so with the colour exit code and the [strconv.ParseUint] error of
    one of the three parts; it does not panic. *)
Theorem literal_color_channels colors (name r g b : string) (cols : list string) :
  colors !! name = None ->
  strings.Split name "," = r :: g :: b :: cols ->
  (forall c, Extended.fillColorOf colors name = Ok c ->
     strconv.ParseUint r 8 = Ok (color.R c) /\
     strconv.ParseUint g 8 = Ok (color.G c) /\
     strconv.ParseUint b 8 = Ok (color.B c) /\
     0 <= color.R c <= 255 /\ 0 <= color.G c <= 255 /\ 0 <= color.B c <= 255 /\
     color.A c = 255) /\
  (forall code e, Extended.fillColorOf colors name = Err (code, e) ->
     code = exitCodeColorError /\
     exists part k, part ∈ [r; g; b] /\ e = NumError "ParseUint" part k /\
                    strconv.ParseUint part 8 = Err e) /\
  (forall p, Extended.fillColorOf colors name <> Panic p).
Proof.
  intros Hmiss Hsplit. unfold Extended.fillColorOf. rewrite Hmiss, Hsplit. res_simpl.
  destruct (strconv.ParseUint r 8) as [rr|er|pr] eqn:Hrr; cbn [orReturn];
    [|split; [done|split; [|done]]|by apply ParseUint_no_panic in Hrr].
  2:{ intros code e [= <- <-]. split; [done|].
      destruct (ParseUint_err _ _ _ Hrr) as [k ->].
      exists r, k. split; [by left|done]. }
  destruct (strconv.ParseUint g 8) as [gg|eg|pg] eqn:Hgg; cbn [orReturn];
    [|split; [done|split; [|done]]|by apply ParseUint_no_panic in Hgg].
  2:{ intros code e [= <- <-]. split; [done|].
      destruct (ParseUint_err _ _ _ Hgg) as [k ->].
      exists g, k. split; [right; by left|done]. }
  destruct (strconv.ParseUint b 8) as [bb|eb|pb] eqn:Hbb; cbn [orReturn];
    [|split; [done|split; [|done]]|by apply ParseUint_no_panic in Hbb].
  2:{ intros code e [= <- <-]. split; [done|].
      destruct (ParseUint_err _ _ _ Hbb) as [k ->].
      exists b, k. split; [do 2 right; by left|done]. }
  pose proof (ParseUint_8_bounds _ _ Hrr). pose proof (ParseUint_8_bounds _ _ Hgg).
  pose proof (ParseUint_8_bounds _ _ Hbb).
  split; [|done]. intros c [= <-]. cbn. unfold Extended.uint8.
  rewrite !Z.mod_small by lia. repeat split; lia.
Qed.

Lemma literal_color_channels_witness :
  (forall c, Extended.fillColorOf sampleColors "75,0,255,9" = Ok c ->
     strconv.ParseUint "75" 8 = Ok (color.R c) /\
     strconv.ParseUint "0" 8 = Ok (color.G c) /\
     strconv.ParseUint "255" 8 = Ok (color.B c) /\
     0 <= color.R c <= 255 /\ 0 <= color.G c <= 255 /\ 0 <= color.B c <= 255 /\
     color.A c = 255) /\
  (forall code e, Extended.fillColorOf sampleColors "1,256,x" = Err (code, e) ->
     code = exitCodeColorError /\
     exists part k, part ∈ ["1"; "256"; "x"] /\ e = NumError "ParseUint" part k /\
                    strconv.ParseUint part 8 = Err e).
Proof.
  split.
  - apply (proj1 (literal_color_channels sampleColors "75,0,255,9" "75" "0" "255"
                    ["9"] eq_refl eq_refl)).
  - apply (proj1 (proj2 (literal_color_channels sampleColors "1,256,x" "1" "256" "x"
                           [] eq_refl eq_refl))).
Defined.

(** * Further properties of [Main] *)

Lemma rectangle_no_Err {E} (p : rectangleParam) (e : E) : rectangle p <> Err e.
Proof.
  unfold rectangle, goint.quo.
  destruct (rp_column p =? 0); [done|]. by destruct (rp_row p =? 0).
Qed.

(** What a result of [drawSpec] says about its run. *)
Lemma drawSpec_inv config colors width height dest fillColor xy :
  match drawSpec config colors width height dest fillColor xy with
  | Ok dest' =>
      exists dp x y x2 y2,
        dest' = draw dest dp /\
        minMaxXY xy = Ok (x, y, x2, y2) /\
        rectangle (E := Z * error) (cellParam config width height x y)
          = Ok (dp_min dp) /\
        rectangle (E := Z * error) (cellParam config width height x2 y2)
          = Ok (dp_max dp) /\
        dp_strokeColor dp = default color.zero (colors !! StrokeColor config) /\
        dp_fillColor dp = fillColor /\
        dp_lineWidth dp = LineWidth config
  | Err (code, e) => code = exitCodeRectangleError /\ minMaxXY xy = Err e
  | Panic p =>
      exists x y x2 y2,
        minMaxXY xy = Ok (x, y, x2, y2) /\
        (rectangle (E := Z * error) (cellParam config width height x y) = Panic p \/
         rectangle (E := Z * error) (cellParam config width height x2 y2) = Panic p)
  end.
Proof.
  unfold drawSpec.
  destruct (minMaxXY xy) as [[[[x y] x2] y2]|e|p] eqn:Hxy; cbn [orReturn]; res_simpl.
  - cbn [rp_column rp_row rp_width rp_height rp_pad].
    fold (cellParam config width height x y).
    fold (cellParam config width height x2 y2).
    destruct (rectangle (cellParam config width height x y)) as [r|e|p] eqn:Hr.
    + destruct (rectangle (cellParam config width height x2 y2)) as [r2|e|p] eqn:Hr2.
      * by eexists _, x, y, x2, y2.
      * by apply rectangle_no_Err in Hr2.
      * exists x, y, x2, y2. split; [done|by right].
    + by apply rectangle_no_Err in Hr.
    + exists x, y, x2, y2. split; [done|by left].
  - done.
  - by apply minMaxXY_no_panic in Hxy.
Qed.

(** A loop that ends normally has drawn one rectangle for each spec, in
    the order of the specs. *)
Lemma forArgs_Ok_inv (P : string -> drawParam -> Prop) body args dest dest' :
  (forall d a d', body d a = Ok d' -> exists dp, d' = draw d dp /\ P a dp) ->
  forArgs body args dest = Ok dest' ->
  exists dps,
    Painted dest' = Painted dest ++ (PaintRectangle <$> dps) /\
    Forall2 P args dps.
Proof.
  intros Hbody. revert dest. induction args as [|a args IH]; intros dest; cbn [forArgs].
  - intros [= <-]. exists []. split; [by rewrite app_nil_r|constructor].
  - destruct (body dest a) as [d'| |] eqn:Hd; res_simpl; try done.
    intros (dps & Hpainted & Hall)%IH.
    destruct (Hbody _ _ _ Hd) as (dp & -> & Hdp).
    exists (dp :: dps). split; [|by constructor].
    rewrite Hpainted. cbn. by rewrite <- app_assoc.
Qed.

(** A loop that ends early does so in the body of one of its specs. *)
Lemma forArgs_Err_inv body args dest ce :
  forArgs body args dest = Err ce ->
  exists a d, a ∈ args /\ body d a = Err ce.
Proof.
  revert dest. induction args as [|a args IH]; intros dest; cbn [forArgs]; [done|].
  destruct (body dest a) as [d'|ce'|] eqn:Hd; res_simpl; try done.
  - intros (a' & d & Hin & Hbody)%IH. exists a', d. split; [by right|done].
  - intros [= <-]. exists a, dest. split; [by left|done].
Qed.

Lemma forArgs_Panic_inv body args dest p :
  forArgs body args dest = Panic p ->
  exists a d, a ∈ args /\ body d a = Panic p.
Proof.
  revert dest. induction args as [|a args IH]; intros dest; cbn [forArgs]; [done|].
  destruct (body dest a) as [d'| |p'] eqn:Hd; res_simpl; try done.
  - intros (a' & d & Hin & Hbody)%IH. exists a', d. split; [by right|done].
  - intros [= <-]. exists a, dest. split; [by left|done].
Qed.

(** The whole record of a run whose output does not open. *)
Lemma runMain_closed colors body w args config :
  docopt_ParseArgs w args = Parsed config -> ~ opens w config ->
  exists err,
    os_Create w (OutFile config) = Some err /\
    runMain colors body w args =
    {| status := Exit exitCodeOpenFileError; stderr := [err];
       created := None; encoded := None |}.
Proof.
  intros Hdoc Hopen. unfold runMain. rewrite Hdoc. unfold opens in Hopen.
  destruct (String.eqb (OutFile config) "") eqn:Hout.
  - apply String.eqb_eq in Hout. tauto.
  - destruct (os_Create w (OutFile config)) as [err|]; [by exists err|tauto].
Qed.

Lemma opens_dec w config : opens w config \/ ~ opens w config.
Proof.
  unfold opens. destruct (String.eqb (OutFile config) "") eqn:Hout.
  - apply String.eqb_eq in Hout. by left; left.
  - apply String.eqb_neq in Hout.
    destruct (os_Create w (OutFile config)); [right|left; by right].
    intros [|]; done.
Qed.

Lemma handedToRenderer_painted r dest background dps :
  encoded r = Some dest ->
  Painted dest = PaintBackground background :: (PaintRectangle <$> dps) ->
  handedToRenderer r = dps.
Proof.
  intros Henc Hpainted. unfold handedToRenderer. rewrite Henc, Hpainted. cbn.
  clear. induction dps as [|dp dps IH]; [done|]. cbn. by rewrite IH.
Qed.

Lemma Base_loopBody_Ok_inv colors config width height d a d' :
  Base.loopBody colors config width height d a = Ok d' ->
  exists dp,
    d' = draw d dp /\
    (drawnAs colors config width height a dp /\
     dp_fillColor dp = baseFill colors config a).
Proof.
  rewrite Base_loopBody_eq. fold (baseFill colors config a).
  pose proof (drawSpec_inv config colors width height d (baseFill colors config a)
                (xyOf a)) as Hinv.
  destruct (drawSpec _ _ _ _ _ _ _) as [d0| |]; [|done..].
  intros [= <-].
  destruct Hinv as (dp & x & y & x2 & y2 & -> & Hxy & Hr & Hr2 & Hs & Hf & Hl).
  exists dp. split; [done|]. split; [|done]. by exists x, y, x2, y2.
Qed.

Lemma Extended_loopBody_Ok_inv colors config width height d a d' :
  Extended.loopBody colors config width height d a = Ok d' ->
  exists dp,
    d' = draw d dp /\
    (drawnAs colors config width height a dp /\
     extendedFill colors config a (dp_fillColor dp)).
Proof.
  rewrite Extended_loopBody_eq. unfold extendedFill.
  destruct (strings.Contains a ":") eqn:Ha.
  - destruct (Extended.fillColorOf colors (colorName a)) as [c| |] eqn:Hc;
      res_simpl; try done.
    pose proof (drawSpec_inv config colors width height d c (xyOf a)) as Hinv.
    destruct (drawSpec _ _ _ _ _ _ _) as [d0| |]; [|done..].
    intros [= <-].
    destruct Hinv as (dp & x & y & x2 & y2 & -> & Hxy & Hr & Hr2 & Hs & Hf & Hl).
    exists dp. split; [done|]. split; [|by rewrite Hf]. by exists x, y, x2, y2.
  - pose proof (drawSpec_inv config colors width height d
                  (default color.zero (colors !! FillColor config)) a) as Hinv.
    destruct (drawSpec _ _ _ _ _ _ _) as [d0| |]; [|done..].
    intros [= <-].
    destruct Hinv as (dp & x & y & x2 & y2 & -> & Hxy & Hr & Hr2 & Hs & Hf & Hl).
    exists dp. split; [done|]. split; [|done]. exists x, y, x2, y2.
    by rewrite (xyOf_plain a Ha).
Qed.

(** The loop of a run that reached the encode step ended normally. *)
Lemma runMain_encoded_inv colors body w args config dest :
  docopt_ParseArgs w args = Parsed config ->
  encoded (runMain colors body w args) = Some dest ->
  forArgs (body config (canvasWidth config) (canvasHeight config))
    (Args config) (initialCanvas colors config) = Ok dest.
Proof.
  intros Hdoc. destruct (opens_dec w config) as [Hopen|Hopen];
    [destruct (NewRGBA_cases w config) as [Halloc|[p0 Halloc]]|].
  - rewrite (runMain_opened colors body w args config Hdoc Hopen Halloc).
    destruct (forArgs _ _ _) as [d|[code e]|p]; [|done..].
    destruct (png_Encode w d); by intros [= <-].
  - by rewrite (runMain_unallocated colors body w args config p0 Hdoc Hopen Halloc).
  - destruct (runMain_closed colors body w args config Hdoc Hopen) as (err & _ & ->).
    done.
Qed.

(** X11: in the base variant, the canvas that reaches the encoder holds
    the background, painted first and once, and then one rectangle for
    each spec, in the order of the command line; the rectangle of a spec
    is built from its own coordinates, with the configured stroke colour
    and line width and with the fill colour of the spec. *)
Theorem base_draws_specs_in_order colors w args config dest :
  docopt_ParseArgs w args = Parsed config ->
  encoded (Base.Main colors w args) = Some dest ->
  Painted dest =
    PaintBackground (default color.zero (colors !! BackgroundColor config))
    :: (PaintRectangle <$> handedToRenderer (Base.Main colors w args)) /\
  Forall2
    (fun arg dp =>
       drawnAs colors config (canvasWidth config) (canvasHeight config) arg dp /\
       dp_fillColor dp = baseFill colors config arg)
    (Args config) (handedToRenderer (Base.Main colors w args)).
Proof.
  intros Hdoc Henc.
  pose proof (runMain_encoded_inv colors (Base.loopBody colors) w args config dest
                Hdoc Henc) as Hloop.
  apply (forArgs_Ok_inv
           (fun arg dp =>
              drawnAs colors config (canvasWidth config) (canvasHeight config) arg dp /\
              dp_fillColor dp = baseFill colors config arg)) in Hloop
    as (dps & Hpainted & Hall); [|apply Base_loopBody_Ok_inv].
  cbn in Hpainted.
  by rewrite (handedToRenderer_painted _ dest _ dps Henc Hpainted).
Qed.

Lemma base_draws_specs_in_order_witness :
  exists dest,
    encoded (Base.Main sampleColors quietWorld ["red:0,0"; "1-2,3"]) = Some dest /\
    Forall2
      (fun arg dp =>
         drawnAs sampleColors (defaultConfig ["red:0,0"; "1-2,3"]) 200 200 arg dp /\
         dp_fillColor dp = baseFill sampleColors (defaultConfig ["red:0,0"; "1-2,3"]) arg)
      ["red:0,0"; "1-2,3"]
      (handedToRenderer (Base.Main sampleColors quietWorld ["red:0,0"; "1-2,3"])).
Proof.
  eexists. split; [reflexivity|].
  eapply (proj2 (base_draws_specs_in_order sampleColors quietWorld
                   ["red:0,0"; "1-2,3"] (defaultConfig ["red:0,0"; "1-2,3"]) _
                   eq_refl eq_refl)).
Defined.

(** X12: in the extended variant, likewise: the canvas that reaches the
    encoder holds the background and then one rectangle for each spec, in
    the order of the command line, each built from the coordinates of its
    spec and filled with the colour that [fillColorOf] returned for the
    text before the colon, or with the configured fill colour when the
    spec has no colon. *)
Theorem extended_draws_specs_in_order colors w args config dest :
  docopt_ParseArgs w args = Parsed config ->
  encoded (Extended.Main colors w args) = Some dest ->
  Painted dest =
    PaintBackground (default color.zero (colors !! BackgroundColor config))
    :: (PaintRectangle <$> handedToRenderer (Extended.Main colors w args)) /\
  Forall2
    (fun arg dp =>
       drawnAs colors config (canvasWidth config) (canvasHeight config) arg dp /\
       extendedFill colors config arg (dp_fillColor dp))
    (Args config) (handedToRenderer (Extended.Main colors w args)).
Proof.
  intros Hdoc Henc.
  pose proof (runMain_encoded_inv colors (Extended.loopBody colors) w args config dest
                Hdoc Henc) as Hloop.
  apply (forArgs_Ok_inv
           (fun arg dp =>
              drawnAs colors config (canvasWidth config) (canvasHeight config) arg dp /\
              extendedFill colors config arg (dp_fillColor dp))) in Hloop
    as (dps & Hpainted & Hall); [|apply Extended_loopBody_Ok_inv].
  cbn in Hpainted.
  by rewrite (handedToRenderer_painted _ dest _ dps Henc Hpainted).
Qed.

Lemma extended_draws_specs_in_order_witness :
  exists dest,
    encoded (Extended.Main sampleColors quietWorld ["7,8,9:0,0"; "1-2,3"]) = Some dest /\
    Forall2
      (fun arg dp =>
         drawnAs sampleColors (defaultConfig ["7,8,9:0,0"; "1-2,3"]) 200 200 arg dp /\
         extendedFill sampleColors (defaultConfig ["7,8,9:0,0"; "1-2,3"]) arg
           (dp_fillColor dp))
      ["7,8,9:0,0"; "1-2,3"]
      (handedToRenderer (Extended.Main sampleColors quietWorld ["7,8,9:0,0"; "1-2,3"])).
Proof.
  eexists. split; [reflexivity|].
  eapply (proj2 (extended_draws_specs_in_order sampleColors quietWorld
                   ["7,8,9:0,0"; "1-2,3"] (defaultConfig ["7,8,9:0,0"; "1-2,3"]) _
                   eq_refl eq_refl)).
Defined.

Lemma runMain_docopt_fails colors body w args err :
  docopt_ParseArgs w args = ParseFailed err ->
  runMain colors body w args =
  {| status := Exit exitCodeArgsError; stderr := [err];
     created := None; encoded := None |}.
Proof. intros Hdoc. unfold runMain. by rewrite Hdoc. Qed.

Lemma Base_loopBody_Err_inv colors config width height d a code e :
  Base.loopBody colors config width height d a = Err (code, e) ->
  code = exitCodeRectangleError /\ minMaxXY (xyOf a) = Err e.
Proof.
  rewrite Base_loopBody_eq. fold (baseFill colors config a).
  pose proof (drawSpec_inv config colors width height d (baseFill colors config a)
                (xyOf a)) as Hinv.
  destruct (drawSpec _ _ _ _ _ _ _) as [|[code' e']|]; [done| |done].
  by intros [= <- <-].
Qed.

Lemma fillColorOf_Err_inv colors name code e :
  Extended.fillColorOf colors name = Err (code, e) ->
  code = exitCodeColorError /\ colors !! name = None /\
  exists part k,
    part ∈ take 3 (strings.Split name ",") /\
    e = NumError "ParseUint" part k /\ strconv.ParseUint part 8 = Err e.
Proof.
  unfold Extended.fillColorOf. destruct (colors !! name); [done|].
  destruct (strings.Split name ",") as [|r [|g [|b cols]]]; try done. res_simpl.
  cbn [take].
  destruct (strconv.ParseUint r 8) as [rr|er|] eqn:Hrr; cbn [orReturn]; try done.
  2:{ intros [= <- <-]. split; [done|]. split; [done|].
      destruct (ParseUint_err _ _ _ Hrr) as [k ->]. exists r, k.
      split; [by left|done]. }
  destruct (strconv.ParseUint g 8) as [gg|eg|] eqn:Hgg; cbn [orReturn]; try done.
  2:{ intros [= <- <-]. split; [done|]. split; [done|].
      destruct (ParseUint_err _ _ _ Hgg) as [k ->]. exists g, k.
      split; [right; by left|done]. }
  destruct (strconv.ParseUint b 8) as [bb|eb|] eqn:Hbb; cbn [orReturn]; try done.
  intros [= <- <-]. split; [done|]. split; [done|].
  destruct (ParseUint_err _ _ _ Hbb) as [k ->]. exists b, k.
  split; [do 2 right; by left|done].
Qed.

Lemma fillColorOf_Panic_inv colors name p :
  Extended.fillColorOf colors name = Panic p ->
  colors !! name = None /\
  (length (strings.Split name ",") < 3)%nat /\
  p = IndexOutOfRange (length (strings.Split name ","))
                      (length (strings.Split name ",")).
Proof.
  intros Hp. destruct (colors !! name) as [c|] eqn:Hmiss.
  { unfold Extended.fillColorOf in Hp. by rewrite Hmiss in Hp. }
  split; [done|].
  destruct (Nat.lt_ge_cases (length (strings.Split name ",")) 3) as [Hlen|Hlen].
  - split; [done|]. rewrite (fillColorOf_short colors name Hmiss Hlen) in Hp.
    by injection Hp as <-.
  - exfalso. revert Hp. unfold Extended.fillColorOf. rewrite Hmiss.
    destruct (strings.Split name ",") as [|r [|g [|b cols]]];
      try (cbn in Hlen; lia).
    res_simpl.
    destruct (strconv.ParseUint r 8) eqn:Hrr; cbn [orReturn]; try done;
      [|by apply ParseUint_no_panic in Hrr].
    destruct (strconv.ParseUint g 8) eqn:Hgg; cbn [orReturn]; try done;
      [|by apply ParseUint_no_panic in Hgg].
    destruct (strconv.ParseUint b 8) eqn:Hbb; cbn [orReturn]; try done.
    by apply ParseUint_no_panic in Hbb.
Qed.

Lemma Extended_loopBody_Err_inv colors config width height d a code e :
  Extended.loopBody colors config width height d a = Err (code, e) ->
  (code = exitCodeRectangleError /\ minMaxXY (xyOf a) = Err e) \/
  (code = exitCodeColorError /\ strings.Contains a ":" = true /\
   Extended.fillColorOf colors (colorName a) = Err (code, e)).
Proof.
  rewrite Extended_loopBody_eq. destruct (strings.Contains a ":") eqn:Ha.
  - destruct (Extended.fillColorOf colors (colorName a)) as [c|[code' e']|] eqn:Hc;
      res_simpl; try done.
    + pose proof (drawSpec_inv config colors width height d c (xyOf a)) as Hinv.
      destruct (drawSpec _ _ _ _ _ _ _) as [|[code' e']|]; [done| |done].
      intros [= <- <-]. by left.
    + intros [= <- <-]. right.
      by destruct (fillColorOf_Err_inv _ _ _ _ Hc) as (-> & _).
  - pose proof (drawSpec_inv config colors width height d
                  (default color.zero (colors !! FillColor config)) a) as Hinv.
    destruct (drawSpec _ _ _ _ _ _ _) as [|[code' e']|]; [done| |done].
    intros [= <- <-]. left. by rewrite (xyOf_plain a Ha).
Qed.

(** X13: exit code 3 is returned for no other reason than a coordinate
    token that does not parse: when a run of either variant ends with exit
    code 3, some spec of the command line has coordinates that [minMaxXY]
    rejects, and the one line printed on standard error is that error. *)
Theorem exit_3_means_bad_coordinates colors w args config :
  docopt_ParseArgs w args = Parsed config ->
  (status (Base.Main colors w args) = Exit exitCodeRectangleError ->
   exists arg e,
     arg ∈ Args config /\ minMaxXY (xyOf arg) = Err e /\
     stderr (Base.Main colors w args) = [e]) /\
  (status (Extended.Main colors w args) = Exit exitCodeRectangleError ->
   exists arg e,
     arg ∈ Args config /\ minMaxXY (xyOf arg) = Err e /\
     stderr (Extended.Main colors w args) = [e]).
Proof.
  intros Hdoc. unfold Base.Main, Extended.Main.
  destruct (opens_dec w config) as [Hopen|Hopen];
    [destruct (NewRGBA_cases w config) as [Halloc|[p0 Halloc]]|].
  - rewrite !(runMain_opened _ _ w args config Hdoc Hopen Halloc). split.
    + destruct (forArgs _ _ _) as [d|[code e]|p] eqn:Hloop;
        [by destruct (png_Encode w d)| |done].
      intros [= ->]. apply forArgs_Err_inv in Hloop as (a & d & Hin & Hbody).
      apply Base_loopBody_Err_inv in Hbody as [_ Hxy]. by exists a, e.
    + destruct (forArgs _ _ _) as [d|[code e]|p] eqn:Hloop;
        [by destruct (png_Encode w d)| |done].
      intros [= ->]. apply forArgs_Err_inv in Hloop as (a & d & Hin & Hbody).
      apply Extended_loopBody_Err_inv in Hbody as [[_ Hxy]|[Hcode _]]; [|done].
      by exists a, e.
  - by rewrite !(runMain_unallocated _ _ w args config p0 Hdoc Hopen Halloc).
  - split.
    + by destruct (runMain_closed colors (Base.loopBody colors) w args config
                     Hdoc Hopen) as (err & _ & ->).
    + by destruct (runMain_closed colors (Extended.loopBody colors) w args config
                     Hdoc Hopen) as (err & _ & ->).
Qed.

Lemma exit_3_means_bad_coordinates_witness :
  exists arg e,
    arg ∈ ["0,0"; "red:1-x,0"] /\ minMaxXY (xyOf arg) = Err e /\
    stderr (Extended.Main sampleColors quietWorld ["0,0"; "red:1-x,0"]) = [e].
Proof.
  apply (proj2 (exit_3_means_bad_coordinates sampleColors quietWorld
                  ["0,0"; "red:1-x,0"] (defaultConfig ["0,0"; "red:1-x,0"]) eq_refl)).
  reflexivity.
Defined.

(** X14: the base variant never ends with exit code 5, and the extended
    variant does so for no other reason than a literal colour with a bad
    channel: some spec has a colon, the text before it is no table name,
    and one of its first three comma-separated parts is rejected by
    [strconv.ParseUint] at 8 bits, with the error that is printed. *)
Theorem exit_5_means_bad_color colors w args :
  status (Base.Main colors w args) <> Exit exitCodeColorError /\
  (forall config,
     docopt_ParseArgs w args = Parsed config ->
     status (Extended.Main colors w args) = Exit exitCodeColorError ->
     exists arg part k,
       arg ∈ Args config /\ strings.Contains arg ":" = true /\
       colors !! colorName arg = None /\
       part ∈ take 3 (strings.Split (colorName arg) ",") /\
       strconv.ParseUint part 8 = Err (NumError "ParseUint" part k) /\
       stderr (Extended.Main colors w args) = [NumError "ParseUint" part k]).
Proof.
  unfold Base.Main, Extended.Main. split.
  - destruct (docopt_ParseArgs w args) as [| |err|config] eqn:Hdoc;
      [by unfold runMain; rewrite Hdoc..|].
    destruct (opens_dec w config) as [Hopen|Hopen];
      [destruct (NewRGBA_cases w config) as [Halloc|[p0 Halloc]]|].
    + rewrite (runMain_opened _ _ w args config Hdoc Hopen Halloc).
      destruct (forArgs _ _ _) as [d|[code e]|p] eqn:Hloop;
        [by destruct (png_Encode w d)| |done].
      apply forArgs_Err_inv in Hloop as (a & d & Hin & Hbody).
      apply Base_loopBody_Err_inv in Hbody as [-> _]. done.
    + by rewrite (runMain_unallocated _ _ w args config p0 Hdoc Hopen Halloc).
    + by destruct (runMain_closed colors (Base.loopBody colors) w args config
                     Hdoc Hopen) as (err & _ & ->).
  - intros config Hdoc. destruct (opens_dec w config) as [Hopen|Hopen];
      [destruct (NewRGBA_cases w config) as [Halloc|[p0 Halloc]]|].
    + rewrite (runMain_opened _ _ w args config Hdoc Hopen Halloc).
      destruct (forArgs _ _ _) as [d|[code e]|p] eqn:Hloop;
        [by destruct (png_Encode w d)| |done].
      intros [= ->]. apply forArgs_Err_inv in Hloop as (a & d & Hin & Hbody).
      apply Extended_loopBody_Err_inv in Hbody as [[Hcode _]|(_ & Ha & Hcolor)];
        [done|].
      apply fillColorOf_Err_inv in Hcolor as (_ & Hmiss & part & k & Hpart & -> & Hp).
      by exists a, part, k.
    + by rewrite (runMain_unallocated _ _ w args config p0 Hdoc Hopen Halloc).
    + by destruct (runMain_closed colors (Extended.loopBody colors) w args config
                     Hdoc Hopen) as (err & _ & ->).
Qed.

Lemma exit_5_means_bad_color_witness :
  exists arg part k,
    arg ∈ ["0,0"; "1,2,256:0,0"] /\ strings.Contains arg ":" = true /\
    sampleColors !! colorName arg = None /\
    part ∈ take 3 (strings.Split (colorName arg) ",") /\
    strconv.ParseUint part 8 = Err (NumError "ParseUint" part k) /\
    stderr (Extended.Main sampleColors quietWorld ["0,0"; "1,2,256:0,0"])
      = [NumError "ParseUint" part k].
Proof.
  apply (proj2 (exit_5_means_bad_color sampleColors quietWorld ["0,0"; "1,2,256:0,0"])
           (defaultConfig ["0,0"; "1,2,256:0,0"]) eq_refl).
  reflexivity.
Defined.

Lemma runMain_wellReported colors body w args maxCode :
  5 <= maxCode + 1 ->
  (forall config d a code e,
     body config (canvasWidth config) (canvasHeight config) d a = Err (code, e) ->
     code = exitCodeRectangleError \/ (code = exitCodeColorError /\ 5 <= maxCode)) ->
  docoptReturns w args ->
  wellReported w maxCode (runMain colors body w args).
Proof.
  intros Hmax Hbody. unfold wellReported, docoptReturns.
  destruct (docopt_ParseArgs w args) as [| |err|config] eqn:Hdoc; [done..| |]; intros _.
  { rewrite (runMain_docopt_fails _ _ _ _ _ Hdoc). cbn.
    unfold exitCodeArgsError, exitCodeOK, exitCodeImageEncodeError.
    split; [lia|]. split; [by eexists|]. split; [done|lia]. }
  destruct (opens_dec w config) as [Hopen|Hopen];
    [destruct (NewRGBA_cases w config) as [Halloc|[p0 Halloc]]|].
  - rewrite (runMain_opened _ _ w args config Hdoc Hopen Halloc).
    destruct (forArgs _ _ _) as [d|[code e]|p] eqn:Hloop; [| |done].
    + destruct (png_Encode w d) as [err|] eqn:Henc; cbn;
        unfold exitCodeOK, exitCodeImageEncodeError.
      * split; [lia|]. split; [by eexists|]. split; [by right|done].
      * split; [lia|]. split; [|split; [by left|done]].
        split; [done|]. by exists d.
    + apply forArgs_Err_inv in Hloop as (a & d & _ & Hcode%Hbody). cbn.
      unfold exitCodeRectangleError, exitCodeColorError, exitCodeOK,
        exitCodeImageEncodeError in *.
      split; [lia|].
      destruct Hcode as [->|[-> _]]; (split; [by eexists|]); split; (done || lia).
  - by rewrite (runMain_unallocated _ _ w args config p0 Hdoc Hopen Halloc).
  - destruct (runMain_closed colors body w args config Hdoc Hopen) as (err & _ & ->).
    cbn. unfold exitCodeOpenFileError, exitCodeOK, exitCodeImageEncodeError.
    split; [lia|]. split; [by eexists|]. split; [done|lia].
Qed.

Lemma wellReported_range w maxCode r code :
  wellReported w maxCode r -> status r = Exit code -> 0 <= code <= maxCode.
Proof. unfold wellReported. intros Hr Hst. rewrite Hst in Hr. tauto. Qed.

Lemma docoptReturns_dec colors body w args :
  docoptReturns w args \/
  status (runMain colors body w args) = Exit 0 \/
  status (runMain colors body w args) = Exit 1.
Proof.
  unfold docoptReturns, runMain.
  destruct (docopt_ParseArgs w args); [right; by left|right; by right|by left..].
Qed.

(** X15: how a run reports.  The exit code of the base variant lies
    from 0 to 4 and that of the extended variant from 0 to 5.  When docopt
    hands the command line back to [Main] (it ends the process itself, with
    status 0 or 1, on [--help], [--version] and on a command line that does
    not match the usage): with exit code 0 nothing is printed by [Main] and
    the image has been encoded without error; with any other exit code
    [Main] prints exactly one error; the encode step is reached with exit
    codes 0 and 4 only, and a run that panics has neither printed an error
    nor encoded. *)
Theorem runs_are_well_reported colors w args :
  (forall code, status (Base.Main colors w args) = Exit code -> 0 <= code <= 4) /\
  (forall code, status (Extended.Main colors w args) = Exit code -> 0 <= code <= 5) /\
  (docoptReturns w args ->
   wellReported w 4 (Base.Main colors w args) /\
   wellReported w 5 (Extended.Main colors w args)).
Proof.
  assert (Hbase : docoptReturns w args -> wellReported w 4 (Base.Main colors w args)).
  { apply runMain_wellReported; [lia|].
    intros config d a code e [-> _]%Base_loopBody_Err_inv. by left. }
  assert (Hext : docoptReturns w args ->
                 wellReported w 5 (Extended.Main colors w args)).
  { apply runMain_wellReported; [lia|].
    intros config d a code e [[-> _]|[-> _]]%Extended_loopBody_Err_inv;
      [by left|by right]. }
  split; [|split; [|by split; [apply Hbase|apply Hext]]].
  - intros code Hst.
    destruct (docoptReturns_dec colors (Base.loopBody colors) w args)
      as [Hret|[H0|H1]].
    + by apply (wellReported_range w 4 _ code (Hbase Hret)).
    + unfold Base.Main in Hst. rewrite H0 in Hst. injection Hst as <-. lia.
    + unfold Base.Main in Hst. rewrite H1 in Hst. injection Hst as <-. lia.
  - intros code Hst.
    destruct (docoptReturns_dec colors (Extended.loopBody colors) w args)
      as [Hret|[H0|H1]].
    + by apply (wellReported_range w 5 _ code (Hext Hret)).
    + unfold Extended.Main in Hst. rewrite H0 in Hst. injection Hst as <-. lia.
    + unfold Extended.Main in Hst. rewrite H1 in Hst. injection Hst as <-. lia.
Qed.

Lemma runs_are_well_reported_witness :
  wellReported quietWorld 4 (Base.Main sampleColors quietWorld ["0,0"; "x"]) /\
  wellReported quietWorld 5 (Extended.Main sampleColors quietWorld ["0,0"; "x"]).
Proof.
  apply (proj2 (proj2 (runs_are_well_reported sampleColors quietWorld ["0,0"; "x"]))).
  exact I.
Defined.

(** On [--help] docopt ends the process with status 0 before [Main]
    does anything: nothing is created and nothing is encoded. *)
Example help_ends_the_process :
  Base.Main sampleColors helpWorld ["--help"]
  = {| status := Exit 0; stderr := []; created := None; encoded := None |} /\
  ~ docoptReturns helpWorld ["--help"].
Proof. split; [reflexivity|]. intros []. Qed.

(** X16: the output file is created before any spec is read: once the
    options are bound and the file named by [-o] can be created, it has
    been created however the run ends, be it with a coordinate or colour
    error or a panic; nothing is created when the image goes to standard
    output or when the file cannot be created. *)
Theorem output_file_created_first colors w args config :
  docopt_ParseArgs w args = Parsed config ->
  (opens w config ->
   created (Base.Main colors w args) = outputFile config /\
   created (Extended.Main colors w args) = outputFile config) /\
  (~ opens w config ->
   created (Base.Main colors w args) = None /\
   created (Extended.Main colors w args) = None).
Proof.
  intros Hdoc. unfold Base.Main, Extended.Main. split; intros Hopen.
  - destruct (NewRGBA_cases w config) as [Halloc|[p0 Halloc]].
    + rewrite !(runMain_opened _ _ w args config Hdoc Hopen Halloc). split.
      * destruct (forArgs _ _ _) as [d|[code e]|p]; [|done..].
        by destruct (png_Encode w d).
      * destruct (forArgs _ _ _) as [d|[code e]|p]; [|done..].
        by destruct (png_Encode w d).
    + by rewrite !(runMain_unallocated _ _ w args config p0 Hdoc Hopen Halloc).
  - split.
    + by destruct (runMain_closed colors (Base.loopBody colors) w args config
                     Hdoc Hopen) as (err & _ & ->).
    + by destruct (runMain_closed colors (Extended.loopBody colors) w args config
                     Hdoc Hopen) as (err & _ & ->).
Qed.

Lemma output_file_created_first_witness :
  (created (Base.Main sampleColors (fileWorld "out.png") ["x"]) = Some "out.png" /\
   created (Extended.Main sampleColors (fileWorld "out.png") ["redd:0,0"])
     = Some "out.png") /\
  created (Base.Main sampleColors (unwritableWorld "/nowhere/out.png") ["0,0"]) = None.
Proof.
  split.
  - split.
    + apply (proj1 (output_file_created_first sampleColors (fileWorld "out.png") ["x"]
                      _ eq_refl)).
      by right.
    + apply (proj1 (output_file_created_first sampleColors (fileWorld "out.png")
                      ["redd:0,0"] _ eq_refl)).
      by right.
  - apply (proj2 (output_file_created_first sampleColors
                    (unwritableWorld "/nowhere/out.png") ["0,0"] _ eq_refl)).
    intros [H|H]; discriminate H.
Defined.

Lemma forArgs_ext body1 body2 args dest :
  (forall a, a ∈ args -> forall d, body1 d a = body2 d a) ->
  forArgs body1 args dest = forArgs body2 args dest.
Proof.
  revert dest. induction args as [|a args IH]; intros dest Hext; [done|].
  cbn [forArgs]. rewrite (Hext a (list_elem_of_here _ _)).
  destruct (body2 dest a); res_simpl; try done.
  apply IH. intros a' Ha'. apply Hext. by right.
Qed.

(** X17: the extended variant extends the base variant: on a command
    line where every colour before a colon is a name of the table, the
    two variants give the same run: exit code, standard error, file and
    encoded canvas. *)
Theorem extended_agrees_with_base colors w args :
  (forall config arg,
     docopt_ParseArgs w args = Parsed config -> arg ∈ Args config ->
     strings.Contains arg ":" = true -> is_Some (colors !! colorName arg)) ->
  Extended.Main colors w args = Base.Main colors w args.
Proof.
  intros Hnames. unfold Base.Main, Extended.Main.
  destruct (docopt_ParseArgs w args) as [| |err|config] eqn:Hdoc;
    [by unfold runMain; rewrite Hdoc..|].
  destruct (opens_dec w config) as [Hopen|Hopen];
    [destruct (NewRGBA_cases w config) as [Halloc|[p0 Halloc]]|].
  - rewrite !(runMain_opened _ _ w args config Hdoc Hopen Halloc).
    rewrite (forArgs_ext
               (Extended.loopBody colors config (canvasWidth config)
                  (canvasHeight config))
               (Base.loopBody colors config (canvasWidth config)
                  (canvasHeight config))); [done|].
    intros a Ha d. rewrite Extended_loopBody_eq, Base_loopBody_eq.
    destruct (strings.Contains a ":") eqn:Hcolon;
      [|by rewrite (xyOf_plain a Hcolon)].
    destruct (Hnames config a eq_refl Ha Hcolon) as [c Hc].
    unfold Extended.fillColorOf. by rewrite Hc.
  - by rewrite !(runMain_unallocated _ _ w args config p0 Hdoc Hopen Halloc).
  - destruct (runMain_closed colors (Base.loopBody colors) w args config
                Hdoc Hopen) as (err & Hcreate & ->).
    destruct (runMain_closed colors (Extended.loopBody colors) w args config
                Hdoc Hopen) as (err' & Hcreate' & ->).
    congruence.
Qed.

Lemma extended_agrees_with_base_witness :
  Extended.Main sampleColors quietWorld ["red:0,0"; "1-2,3"; "blue:x"]
  = Base.Main sampleColors quietWorld ["red:0,0"; "1-2,3"; "blue:x"].
Proof.
  apply (extended_agrees_with_base sampleColors quietWorld
           ["red:0,0"; "1-2,3"; "blue:x"]).
  intros config arg [= <-] Harg Hcolon. cbn [Args defaultConfig] in Harg.
  apply elem_of_cons in Harg as [->|Harg]; [by eexists|].
  apply elem_of_cons in Harg as [->|Harg]; [discriminate Hcolon|].
  apply list_elem_of_singleton in Harg as ->. by eexists.
Defined.

(** X18: a run stops at the first spec whose coordinates do not parse:
    when the output opens, the canvas is allocated, the grid has columns
    and rows other than zero and the specs before the failing one parse
    (and, in the extended variant, the colours up to the failing one
    resolve), the run ends with exit code 3, prints the error of that spec
    and no other, and has not encoded; the specs after it play no part. *)
Theorem first_bad_coordinate_is_reported colors w args config pre bad post e :
  docopt_ParseArgs w args = Parsed config -> opens w config -> allocates w config ->
  Column config <> 0 -> Row config <> 0 ->
  Args config = pre ++ bad :: post ->
  (forall a, a ∈ pre -> ~ coordinateFails a) ->
  minMaxXY (xyOf bad) = Err e ->
  Base.Main colors w args =
    {| status := Exit exitCodeRectangleError; stderr := [e];
       created := outputFile config; encoded := None |} /\
  ((forall a, a ∈ pre ++ [bad] -> colorResolves colors a) ->
   Extended.Main colors w args =
     {| status := Exit exitCodeRectangleError; stderr := [e];
        created := outputFile config; encoded := None |}).
Proof.
  intros Hdoc Hopen Halloc Hc Hr Hargs Hpre He. unfold Base.Main, Extended.Main.
  rewrite !(runMain_opened _ _ w args config Hdoc Hopen Halloc), Hargs. split.
  - destruct (forArgs_reaches
                (Base.loopBody colors config (canvasWidth config) (canvasHeight config))
                pre bad post (initialCanvas colors config)) as [d ->].
    { intros a Ha d.
      destruct (Base_loopBody_parses colors config (canvasWidth config)
                  (canvasHeight config) d a Hc Hr (Hpre a Ha)) as (dp & -> & _).
      by eexists. }
    by rewrite (Base_loopBody_fails _ _ _ _ _ _ _ He).
  - intros Hcolors.
    destruct (forArgs_reaches
                (Extended.loopBody colors config (canvasWidth config)
                   (canvasHeight config))
                pre bad post (initialCanvas colors config)) as [d ->].
    { intros a Ha d.
      destruct (Extended_loopBody_parses colors config (canvasWidth config)
                  (canvasHeight config) d a Hc Hr) as (dp & ->);
        [apply Hcolors, elem_of_app; by left | by apply Hpre | by eexists]. }
    rewrite (Extended_loopBody_fails _ _ _ _ _ _ e); [done| |done].
    apply Hcolors, elem_of_app. right. by left.
Qed.

Lemma first_bad_coordinate_is_reported_witness :
  Base.Main sampleColors (fileWorld "out.png") ["0,0"; "1-,2"; "y"; "3,3"] =
    {| status := Exit exitCodeRectangleError;
       stderr := [NumError "Atoi" "" ErrSyntax];
       created := Some "out.png"; encoded := None |}.
Proof.
  refine (proj1 (first_bad_coordinate_is_reported sampleColors (fileWorld "out.png")
                   ["0,0"; "1-,2"; "y"; "3,3"] _ ["0,0"] "1-,2" ["y"; "3,3"]
                   (NumError "Atoi" "" ErrSyntax) eq_refl (or_intror eq_refl)
                   eq_refl ltac:(cbn; lia) ltac:(cbn; lia) eq_refl _ eq_refl)).
  intros a ->%list_elem_of_singleton [e He]. discriminate He.
Defined.

(** X19: a panic of the loop body never comes from the indexing of
    [Main], [minMaxXY] and [splitHyphen] ([f[1]], [fs[1]], [xs[1]]): in the
    base variant the body can only panic once the coordinates of the spec
    have parsed, that is, in the helpers called after [minMaxXY]; in the
    extended variant the one other case is the colour before a colon that
    is no table name and has fewer than three comma-separated parts, with
    the index panic at the length of the parts. *)
Theorem loop_body_panics_after_parsing colors config width height d a p :
  (Base.loopBody colors config width height d a = Panic p ->
   exists x y x2 y2, minMaxXY (xyOf a) = Ok (x, y, x2, y2)) /\
  (Extended.loopBody colors config width height d a = Panic p ->
   (exists x y x2 y2 c,
      minMaxXY (xyOf a) = Ok (x, y, x2, y2) /\ extendedFill colors config a c) \/
   (strings.Contains a ":" = true /\ colors !! colorName a = None /\
    (length (strings.Split (colorName a) ",") < 3)%nat /\
    p = IndexOutOfRange (length (strings.Split (colorName a) ","))
                        (length (strings.Split (colorName a) ",")))).
Proof.
  split.
  - rewrite Base_loopBody_eq. fold (baseFill colors config a).
    pose proof (drawSpec_inv config colors width height d (baseFill colors config a)
                  (xyOf a)) as Hinv.
    destruct (drawSpec _ _ _ _ _ _ _) as [| |p']; [done..|].
    intros _. destruct Hinv as (x & y & x2 & y2 & Hxy & _). by exists x, y, x2, y2.
  - rewrite Extended_loopBody_eq. unfold extendedFill.
    destruct (strings.Contains a ":") eqn:Ha.
    + destruct (Extended.fillColorOf colors (colorName a)) as [c| |p'] eqn:Hcolor;
        res_simpl; try done.
      * pose proof (drawSpec_inv config colors width height d c (xyOf a)) as Hinv.
        destruct (drawSpec _ _ _ _ _ _ _) as [| |p']; [done..|].
        intros _. left. destruct Hinv as (x & y & x2 & y2 & Hxy & _).
        by exists x, y, x2, y2, c.
      * intros [= <-]. right.
        by apply fillColorOf_Panic_inv in Hcolor as (? & ? & ?).
    + pose proof (drawSpec_inv config colors width height d
                    (default color.zero (colors !! FillColor config)) a) as Hinv.
      destruct (drawSpec _ _ _ _ _ _ _) as [| |p']; [done..|].
      intros _. left. destruct Hinv as (x & y & x2 & y2 & Hxy & _).
      exists x, y, x2, y2, (default color.zero (colors !! FillColor config)).
      by rewrite (xyOf_plain a Ha).
Qed.

Lemma loop_body_panics_after_parsing_witness :
  (exists x y x2 y2,
     minMaxXY (xyOf "1,2:0,0") = Ok (x, y, x2, y2) /\
     exists c, extendedFill sampleColors (defaultConfig []) "1,2:0,0" c) \/
  (strings.Contains "1,2:0,0" ":" = true /\
   sampleColors !! colorName "1,2:0,0" = None /\
   (length (strings.Split (colorName "1,2:0,0") ",") < 3)%nat /\
   IndexOutOfRange 2 2
   = IndexOutOfRange (length (strings.Split (colorName "1,2:0,0") ","))
                     (length (strings.Split (colorName "1,2:0,0") ","))).
Proof.
  destruct (proj2 (loop_body_panics_after_parsing sampleColors (defaultConfig [])
                     200 200 (initialCanvas sampleColors (defaultConfig []))
                     "1,2:0,0" (IndexOutOfRange 2 2)) eq_refl)
    as [(x & y & x2 & y2 & c & Hxy & Hc)|Hshort].
  - left. exists x, y, x2, y2. split; [exact Hxy|]. by exists c.
  - right. exact Hshort.
Defined.

(** X20: a spec without hyphens draws one cell: when both tokens of
    [tx "," ty] are scalars and the spec is drawn, the two rectangles
    handed to the renderer are the same, the one of the cell (x, y). *)
Theorem scalar_spec_draws_one_cell config colors width height dest fillColor
    (tx ty : string) (dest' : Canvas) :
  lacks "," tx -> lacks "," ty -> lacks "-" tx -> lacks "-" ty ->
  drawSpec config colors width height dest fillColor (tx +:+ "," +:+ ty) = Ok dest' ->
  exists dp x y,
    dest' = draw dest dp /\
    strconv.Atoi tx = Ok x /\ strconv.Atoi ty = Ok y /\
    rectangle (E := Z * error) (cellParam config width height x y) = Ok (dp_min dp) /\
    dp_max dp = dp_min dp.
Proof.
  intros Hcx Hcy Hhx Hhy Hdraw.
  pose proof (drawSpec_inv config colors width height dest fillColor
                (tx +:+ "," +:+ ty)) as Hinv.
  rewrite Hdraw in Hinv.
  destruct Hinv as (dp & x & y & x2 & y2 & -> & Hxy & Hr & Hr2 & _).
  destruct (minMaxXY_fields _ tx ty [] (Split_pair tx ty Hcx Hcy)) as [_ Heq].
  { change ("," +:+ ty) with (String "," ty). apply Contains_app_sep. }
  rewrite Heq, (splitHyphen_scalar_eq tx Hhx), (splitHyphen_scalar_eq ty Hhy) in Hxy.
  revert Hxy. res_simpl.
  destruct (strconv.Atoi tx) as [a| |] eqn:Ha; try done.
  destruct (strconv.Atoi ty) as [b| |] eqn:Hb; try done.
  intros [= -> -> -> ->]. exists dp, x2, y2.
  repeat (split; [done|]). congruence.
Qed.

Lemma scalar_spec_draws_one_cell_witness :
  exists dp x y,
    draw (initialCanvas sampleColors (defaultConfig []))
      {| dp_min := {| image.Min := {| image.X := 105; image.Y := 55 |};
                      image.Max := {| image.X := 145; image.Y := 95 |} |};
         dp_max := {| image.Min := {| image.X := 105; image.Y := 55 |};
                      image.Max := {| image.X := 145; image.Y := 95 |} |};
         dp_strokeColor := {| color.R := 0; color.G := 0; color.B := 0;
                              color.A := 255 |};
         dp_fillColor := color.zero;
         dp_lineWidth := 4611686018427387904 |}
    = draw (initialCanvas sampleColors (defaultConfig [])) dp /\
    strconv.Atoi "2" = Ok x /\ strconv.Atoi "1" = Ok y /\
    rectangle (E := Z * error) (cellParam (defaultConfig []) 200 200 x y)
      = Ok (dp_min dp) /\
    dp_max dp = dp_min dp.
Proof.
  apply (scalar_spec_draws_one_cell (defaultConfig []) sampleColors 200 200
           (initialCanvas sampleColors (defaultConfig [])) color.zero "2" "1");
    reflexivity.
Defined.

(** * The unknown colour of the base variant, run by run *)

Lemma Forall2_elem_of_l {A B} (P : A -> B -> Prop) (l : list A) (k : list B) x :
  Forall2 P l k -> x ∈ l -> exists y, y ∈ k /\ P x y.
Proof.
  induction 1 as [|a b l k Hab _ IH]; [by intros ?%elem_of_nil|].
  intros [->|Hx]%elem_of_cons.
  - exists b. split; [by left|done].
  - destruct (IH Hx) as (y & Hy & Hxy). exists y. split; [by right|done].
Qed.

(** C8: in the base variant a spec [COLOR:XY] whose colour is not in the
    table is drawn with the zero-value RGBA as fill colour, and the lookup
    raises nothing: the loop body goes on to the coordinates as for any
    other spec, and a run all of whose coordinate tokens parse (the output
    opened, the canvas allocated, columns and rows other than zero, the
    encoder succeeding) ends with exit code 0, having handed to the
    renderer the rectangle of that spec with the zero value as fill
    colour. *)
Theorem base_unknown_color_is_transparent colors arg :
  strings.Contains arg ":" = true -> colors !! colorName arg = None ->
  (forall config width height dest,
     Base.loopBody colors config width height dest arg
     = drawSpec config colors width height dest color.zero (xyOf arg)) /\
  (forall config width height dest,
     Column config <> 0 -> Row config <> 0 -> ~ coordinateFails arg ->
     exists dp,
       Base.loopBody colors config width height dest arg = Ok (draw dest dp) /\
       dp_fillColor dp = color.zero) /\
  (forall w args config,
     docopt_ParseArgs w args = Parsed config -> opens w config ->
     allocates w config ->
     Column config <> 0 -> Row config <> 0 ->
     arg ∈ Args config ->
     (forall a, a ∈ Args config -> ~ coordinateFails a) ->
     (forall dest, png_Encode w dest = None) ->
     status (Base.Main colors w args) = Exit exitCodeOK /\
     stderr (Base.Main colors w args) = [] /\
     exists dp,
       dp ∈ handedToRenderer (Base.Main colors w args) /\
       drawnAs colors config (canvasWidth config) (canvasHeight config) arg dp /\
       dp_fillColor dp = color.zero).
Proof.
  intros Harg Hmiss. split; [|split].
  - intros config width height dest. by rewrite Base_loopBody_eq, Harg, Hmiss.
  - intros config width height dest Hc Hr Hparse.
    destruct (Base_loopBody_parses colors config width height dest arg Hc Hr Hparse)
      as (dp & Hbody & Hfill).
    exists dp. split; [done|]. by rewrite Hfill, Harg, Hmiss.
  - intros w args config Hdoc Hopen Halloc Hc Hr Hin Hargs Henc.
    destruct (Base_Main_success colors w args config Hdoc Hopen Halloc Hc Hr Hargs Henc)
      as [Hst [dest Hdest]].
    split; [done|]. split.
    { clear Hst. revert Hdest. unfold Base.Main.
      rewrite (runMain_opened _ _ w args config Hdoc Hopen Halloc).
      destruct (forArgs _ _ _) as [d|[code e]|p]; [|done..].
      by rewrite Henc. }
    pose proof (runMain_encoded_inv colors (Base.loopBody colors) w args config dest
                  Hdoc Hdest) as Hloop.
    apply (forArgs_Ok_inv
             (fun a dp =>
                drawnAs colors config (canvasWidth config) (canvasHeight config) a dp /\
                dp_fillColor dp = baseFill colors config a)) in Hloop
      as (dps & Hpainted & Hall); [|apply Base_loopBody_Ok_inv].
    cbn in Hpainted.
    rewrite (handedToRenderer_painted _ dest _ dps Hdest Hpainted).
    destruct (Forall2_elem_of_l _ _ _ arg Hall Hin) as (dp & Hdp & Hdrawn & Hfill).
    exists dp. split; [done|]. split; [done|].
    rewrite Hfill. unfold baseFill. by rewrite Harg, Hmiss.
Qed.

Lemma base_unknown_color_is_transparent_witness :
  (exists dp,
     Base.loopBody sampleColors (defaultConfig ["redd:0,0"]) 200 200
       (initialCanvas sampleColors (defaultConfig ["redd:0,0"])) "redd:0,0"
     = Ok (draw (initialCanvas sampleColors (defaultConfig ["redd:0,0"])) dp) /\
     dp_fillColor dp = color.zero) /\
  (status (Base.Main sampleColors quietWorld ["1,1"; "redd:0,0"]) = Exit exitCodeOK /\
   stderr (Base.Main sampleColors quietWorld ["1,1"; "redd:0,0"]) = [] /\
   exists dp,
     dp ∈ handedToRenderer (Base.Main sampleColors quietWorld ["1,1"; "redd:0,0"]) /\
     drawnAs sampleColors (defaultConfig ["1,1"; "redd:0,0"]) 200 200 "redd:0,0" dp /\
     dp_fillColor dp = color.zero).
Proof.
  split.
  - apply (proj1 (proj2 (base_unknown_color_is_transparent sampleColors "redd:0,0"
                           eq_refl eq_refl))).
    + cbn; lia.
    + cbn; lia.
    + intros [e He]. discriminate He.
  - refine (proj2 (proj2 (base_unknown_color_is_transparent sampleColors "redd:0,0"
                            eq_refl eq_refl))
              quietWorld ["1,1"; "redd:0,0"] (defaultConfig ["1,1"; "redd:0,0"])
              eq_refl (or_introl eq_refl) eq_refl ltac:(cbn; lia) ltac:(cbn; lia)
              _ _ (fun _ => eq_refl)).
    + right. left.
    + intros a [->|[->|[]%elem_of_nil]%elem_of_cons]%elem_of_cons [e He];
        discriminate He.
Defined.
